(** * agent-sdk-docs: the site configuration, the sidebars and the pages

    The repository holds no executable logic of its own: it is a Docusaurus
    site made of an object literal exported by [docusaurus.config.ts], an
    object literal exported by the sidebar definition file, and markdown
    pages.  The development embeds the two object literals as values of a
    small type of JavaScript literals, the text of the two TypeScript files
    and of the README line by line, and the cited stretches of the markdown
    pages line by line, and checks the structural statements made about
    them. *)

From Stdlib Require Import List Bool Arith Lia ZArith.
From Stdlib Require Import Strings.String Strings.Ascii Numbers.DecimalString.
Import ListNotations.
Open Scope string_scope.

Set Warnings "-register-all".

(** ** JavaScript literals *)

(** The values that occur in the two exported object literals: strings,
    booleans, references to an imported binding ([prismThemes.github]),
    arrays and objects.  An object keeps its properties in source order. *)
Inductive JsVal : Type :=
| JStr (s : string)
| JBool (b : bool)
| JRef (object property : string)
| JArr (items : list JsVal)
| JObj (fields : list (string * JsVal)).

(** Property lookup in a list of properties; as in JavaScript a later
    property of the same name overrides an earlier one. *)
Fixpoint lookup (k : string) (fs : list (string * JsVal)) : option JsVal :=
  match fs with
  | [] => None
  | (k', v) :: rest =>
      match lookup k rest with
      | Some w => Some w
      | None => if String.eqb k k' then Some v else None
      end
  end.

(** [field k v] is [v.k]; [None] stands for [undefined]. *)
Definition field (k : string) (v : JsVal) : option JsVal :=
  match v with
  | JObj fs => lookup k fs
  | _ => None
  end.

(** [at_path [a; b; c] v] is [v.a.b.c]. *)
Fixpoint at_path (p : list string) (v : JsVal) : option JsVal :=
  match p with
  | [] => Some v
  | k :: p' =>
      match field k v with
      | Some w => at_path p' w
      | None => None
      end
  end.

(** The own property names of an object, in source order. *)
Definition keys (v : JsVal) : list string :=
  match v with
  | JObj fs => map fst fs
  | _ => []
  end.

(** The elements of an array; anything else has none. *)
Definition elements (v : JsVal) : list JsVal :=
  match v with
  | JArr l => l
  | _ => []
  end.

Definition elements_at (p : list string) (v : JsVal) : list JsVal :=
  match at_path p v with
  | Some w => elements w
  | None => []
  end.

Definition string_field (k : string) (v : JsVal) : option string :=
  match field k v with
  | Some (JStr s) => Some s
  | _ => None
  end.

Definition field_is (k s : string) (v : JsVal) : bool :=
  match string_field k v with
  | Some s' => String.eqb s s'
  | None => false
  end.

(** The values present in a list of optional values. *)
Fixpoint somes {A : Type} (l : list (option A)) : list A :=
  match l with
  | [] => []
  | Some a :: l' => a :: somes l'
  | None :: l' => somes l'
  end.

(** ** Strings *)

Fixpoint strip_prefix (p s : string) : option string :=
  match p with
  | EmptyString => Some s
  | String c p' =>
      match s with
      | String d s' => if Ascii.eqb c d then strip_prefix p' s' else None
      | EmptyString => None
      end
  end.

Definition starts_with (p s : string) : bool :=
  match strip_prefix p s with Some _ => true | None => false end.

(** [occurs w s]: [w] is a substring of [s]. *)
Fixpoint occurs (w s : string) : bool :=
  starts_with w s ||
  match s with
  | EmptyString => false
  | String _ s' => occurs w s'
  end.

Definition strip_suffix (q s : string) : option string :=
  let n := String.length s - String.length q in
  if Nat.leb (String.length q) (String.length s)
     && String.eqb (substring n (String.length q) s) q
  then Some (substring 0 n s)
  else None.

(** The double quote, for the lines of source text that contain one. *)
Definition dq : string := String (ascii_of_nat 34) EmptyString.

(** ** docusaurus.config.ts *)

Module DocusaurusConfig.

(** The template literal [`${n}`] prints a number in decimal. *)
Definition show_year (y : Z) : string := NilZero.string_of_int (Z.to_int y).

(** The object literal bound to [config] (lines 7 to 132).  It has one
    input, [new Date().getFullYear()], read when the module is loaded; the
    [satisfies] annotations are erased by the compiler. *)
Definition config (fullYear : Z) : JsVal :=
  JObj [
    ("title", JStr "Build AI Agent SDK");
    ("tagline", JStr "Framework-agnostic SDK for building intelligent AI agents");
    ("favicon", JStr "img/favicon.ico");
    ("future", JObj [("v4", JBool true)]);
    ("url", JStr "https://linuxdevil.github.io");
    ("baseUrl", JStr "/agent-sdk-docs/");
    ("organizationName", JStr "LinuxDevil");
    ("projectName", JStr "agent-sdk-docs");
    ("onBrokenLinks", JStr "throw");
    ("i18n", JObj [
      ("defaultLocale", JStr "en");
      ("locales", JArr [JStr "en"])]);
    ("presets", JArr [
      JArr [
        JStr "classic";
        JObj [
          ("docs", JObj [
            ("sidebarPath", JStr "./sidebars.ts");
            ("editUrl", JStr "https://github.com/LinuxDevil/agent-sdk/tree/main/docs/")]);
          ("blog", JBool false);
          ("theme", JObj [
            ("customCss", JStr "./src/css/custom.css")])]]]);
    ("themeConfig", JObj [
      ("image", JStr "img/docusaurus-social-card.jpg");
      ("colorMode", JObj [
        ("respectPrefersColorScheme", JBool true)]);
      ("navbar", JObj [
        ("title", JStr "Build AI Agent");
        ("logo", JObj [
          ("alt", JStr "Build AI Agent Logo");
          ("src", JStr "img/logo.svg")]);
        ("items", JArr [
          JObj [
            ("type", JStr "docSidebar");
            ("sidebarId", JStr "tutorialSidebar");
            ("position", JStr "left");
            ("label", JStr "Docs")];
          JObj [
            ("type", JStr "docSidebar");
            ("sidebarId", JStr "apiSidebar");
            ("position", JStr "left");
            ("label", JStr "API")];
          JObj [
            ("href", JStr "https://github.com/LinuxDevil/agent-sdk");
            ("label", JStr "GitHub");
            ("position", JStr "right")];
          JObj [
            ("href", JStr "https://www.npmjs.com/package/@tajwal/build-ai-agent");
            ("label", JStr "npm");
            ("position", JStr "right")]])]);
      ("footer", JObj [
        ("style", JStr "dark");
        ("links", JArr [
          JObj [
            ("title", JStr "Docs");
            ("items", JArr [
              JObj [
                ("label", JStr "Getting Started");
                ("to", JStr "/docs/intro")];
              JObj [
                ("label", JStr "API Reference");
                ("to", JStr "/docs/api/overview")];
              JObj [
                ("label", JStr "Examples");
                ("to", JStr "/docs/examples/chatbot")]])];
          JObj [
            ("title", JStr "More");
            ("items", JArr [
              JObj [
                ("label", JStr "GitHub");
                ("href", JStr "https://github.com/LinuxDevil/agent-sdk")]])]]);
        ("copyright", JStr ("Copyright © " ++ show_year fullYear ++ " Almosafer."))]);
      ("prism", JObj [
        ("theme", JRef "prismThemes" "github");
        ("darkTheme", JRef "prismThemes" "dracula");
        ("additionalLanguages",
           JArr [JStr "bash"; JStr "typescript"; JStr "javascript"; JStr "json"])])])
  ].

(** The navbar items, and the [sidebarId] of those of type ['docSidebar']. *)
Definition navbar_items (c : JsVal) : list JsVal :=
  elements_at ["themeConfig"; "navbar"; "items"] c.

Definition doc_sidebar_ids (c : JsVal) : list string :=
  somes (map (string_field "sidebarId")
             (filter (field_is "type" "docSidebar") (navbar_items c))).

(** The footer columns, and the [to] targets of the column of a title. *)
Definition footer_links (c : JsVal) : list JsVal :=
  elements_at ["themeConfig"; "footer"; "links"] c.

Definition footer_targets (title : string) (c : JsVal) : list string :=
  flat_map (fun col => somes (map (string_field "to") (elements_at ["items"] col)))
           (filter (field_is "title" title) (footer_links c)).

End DocusaurusConfig.

(** ** The sidebar definition file *)

Module Sidebars.

(** The object literal bound to [sidebars] (lines 15 to 68 of
    [src/unnamed/part_005], the file [./sidebars.ts] that the configuration
    names as [sidebarPath]). *)
Definition sidebars : JsVal :=
  JObj [
    ("tutorialSidebar", JArr [
      JObj [
        ("type", JStr "doc");
        ("id", JStr "overview");
        ("label", JStr "What is Build AI Agent?")];
      JStr "intro";
      JStr "installation";
      JStr "quick-start";
      JObj [
        ("type", JStr "category");
        ("label", JStr "Core Concepts");
        ("collapsed", JBool false);
        ("items", JArr [
          JStr "concepts/agents";
          JStr "concepts/tools"])];
      JObj [
        ("type", JStr "category");
        ("label", JStr "Tutorials");
        ("items", JArr [
          JStr "tutorials/building-chatbot"])];
      JObj [
        ("type", JStr "category");
        ("label", JStr "Examples");
        ("items", JArr [
          JStr "examples/chatbot"])];
      JObj [
        ("type", JStr "doc");
        ("id", JStr "glossary");
        ("label", JStr "Glossary")]]);
    ("apiSidebar", JArr [
      JStr "api/overview";
      JObj [
        ("type", JStr "category");
        ("label", JStr "Core API");
        ("items", JArr [
          JStr "api/agent-builder";
          JStr "api/agent-executor"])]])
  ].

(** A sidebar item as the site generator reads it: a document, or a
    category holding an ordered list of items. *)
Inductive Item : Type :=
| Doc (id : string)
| Category (label : string) (items : list Item).

(** Reading of one literal of a sidebar array.  A bare string is the
    shorthand of a document; an object is read by its [type]; the [items] of
    a category are read in order, and a literal of no known shape denotes no
    item. *)
Fixpoint read_item (v : JsVal) : list Item :=
  match v with
  | JStr id => [Doc id]
  | JObj fs =>
      match lookup "type" fs with
      | Some (JStr t) =>
          if String.eqb t "doc" then
            match lookup "id" fs with
            | Some (JStr id) => [Doc id]
            | _ => []
            end
          else if String.eqb t "category" then
            match lookup "label" fs with
            | Some (JStr l) =>
                [Category l
                   (match
                      (fix items_of (gs : list (string * JsVal)) : option (list Item) :=
                         match gs with
                         | [] => None
                         | (k, w) :: rest =>
                             match items_of rest with
                             | Some r => Some r
                             | None =>
                                 if String.eqb k "items" then
                                   Some (match w with
                                         | JArr l =>
                                             (fix read_all (l : list JsVal) : list Item :=
                                                match l with
                                                | [] => []
                                                | x :: l' => (read_item x ++ read_all l')%list
                                                end) l
                                         | _ => []
                                         end)
                                 else None
                             end
                         end) fs
                    with
                    | Some r => r
                    | None => []
                    end)]
            | _ => []
            end
          else []
      | _ => []
      end
  | _ => []
  end.

(** The items of the sidebar of a given id. *)
Definition sidebar (sidebarId : string) (s : JsVal) : list Item :=
  flat_map read_item (elements_at [sidebarId] s).

(** Document ids and category labels of an item, in document order. *)
Fixpoint doc_ids (i : Item) : list string :=
  match i with
  | Doc id => [id]
  | Category _ items => flat_map doc_ids items
  end.

Fixpoint category_labels (i : Item) : list string :=
  match i with
  | Doc _ => []
  | Category l items => l :: flat_map category_labels items
  end.

(** All the items of a sidebars object, sidebar after sidebar. *)
Definition all_items (s : JsVal) : list Item :=
  flat_map (fun k => sidebar k s) (keys s).

Definition all_doc_ids (s : JsVal) : list string :=
  flat_map doc_ids (all_items s).

Definition all_category_labels (s : JsVal) : list string :=
  flat_map category_labels (all_items s).

End Sidebars.

(** ** Source text *)

(** The text of the TypeScript files and of the README, and the cited
    stretches of the markdown pages, line by line. *)
Module Src.



(** [README.md], lines 1 to 47. *)
Definition readme_md : list string :=
  [ "# Build AI Agent SDK Documentation";
    "";
    "This website is built using [Docusaurus](https://docusaurus.io/), a modern static website generator.";
    "";
    "## Installation";
    "";
    "```bash";
    "npm install";
    "```";
    "";
    "## Local Development";
    "";
    "```bash";
    "npm start";
    "```";
    "";
    "This command starts a local development server and opens up a browser window. Most changes are reflected live without having to restart the server.";
    "";
    "## Build";
    "";
    "```bash";
    "npm run build";
    "```";
    "";
    "This command generates static content into the `build` directory and can be served using any static contents hosting service.";
    "";
    "## Deployment";
    "";
    "This site is automatically deployed to GitHub Pages when changes are pushed to the `main` branch. The deployment is handled by GitHub Actions (see `.github/workflows/deploy.yml`).";
    "";
    "The site will be available at: https://linuxdevil.github.io/agent-sdk-docs/";
    "";
    "### Manual Deployment";
    "";
    "If you need to deploy manually:";
    "";
    "```bash";
    "npm run deploy";
    "```";
    "";
    "### Setting up GitHub Pages";
    "";
    "1. Go to your repository settings on GitHub";
    ("2. Navigate to " ++ dq ++ "Pages" ++ dq ++ " in the left sidebar");
    ("3. Under " ++ dq ++ "Build and deployment" ++ dq ++ ", set:");
    "   - **Source**: GitHub Actions";
    "4. Push changes to the `main` branch to trigger automatic deployment" ].

(** [docs/intro.md], lines 1 to 5. *)
Definition intro_md : list string :=
  [ "---";
    "sidebar_position: 1";
    "---";
    "";
    "# Welcome to Build AI Agent SDK" ].

(** [docs/overview.md], lines 1 to 7. *)
Definition overview_md : list string :=
  [ "---";
    "sidebar_position: 1";
    "title: What is Build AI Agent SDK?";
    "description: Overview of the Build AI Agent SDK, its architecture, and why it exists";
    "---";
    "";
    "# What is Build AI Agent SDK?" ].

(** [docs/glossary.md], lines 1 to 7. *)
Definition glossary_md : list string :=
  [ "---";
    "sidebar_position: 100";
    "title: Glossary";
    "description: Definitions of key terms and concepts in Build AI Agent SDK";
    "---";
    "";
    "# Glossary" ].

(** The page packed after the separator in [docs/glossary.md], lines 168 to 174 (the separator that opens line 168 left out). *)
Definition tutorial_md : list string :=
  [ "---";
    "sidebar_position: 1";
    ("title: " ++ dq ++ "Tutorial: Building a Complete Chatbot" ++ dq);
    "description: Step-by-step guide to building a production-ready chatbot with tools, memory, and error handling";
    "---";
    "";
    "# Tutorial: Building a Complete Chatbot" ].

(** [docs/concepts/tools.md], lines 1 to 5. *)
Definition tools_md : list string :=
  [ "---";
    "sidebar_position: 2";
    "---";
    "";
    "# Tools" ].

(** [src/unnamed/part_000], lines 1 to 40: the head of the page and the start of its first example. *)
Definition part_000_md : list string :=
  [ "---";
    "sidebar_position: 1";
    "---";
    "";
    "# Simple Chatbot";
    "";
    "Build a conversational chatbot with memory and context awareness.";
    "";
    "## Overview";
    "";
    "This example demonstrates how to create a basic chatbot that:";
    "- Responds to user messages";
    "- Maintains conversation history";
    "- Uses OpenAI GPT models";
    "- Handles errors gracefully";
    "";
    "## Complete Code";
    "";
    ("```typescript title=" ++ dq ++ "chatbot.ts" ++ dq);
    "import { ";
    "  AgentBuilder, ";
    "  AgentExecutor, ";
    "  OpenAIProvider,";
    "  createMockRepositories,";
    "  AgentType ";
    "} from '@tajwal/build-ai-agent';";
    "";
    "async function main() {";
    "  // Create chatbot agent";
    "  const agent = new AgentBuilder()";
    "    .setType(AgentType.Chatbot)";
    "    .setName('Friendly Chatbot')";
    "    .setPrompt(`You are a friendly and helpful chatbot assistant.";
    "    - Be conversational and warm";
    "    - Remember context from previous messages";
    "    - Ask clarifying questions when needed";
    "    - Provide helpful and accurate information`)";
    "    .setDescription('A friendly chatbot for general conversations')";
    "    .build();";
    "" ].

(** [src/unnamed/part_001], lines 1 to 5. *)
Definition part_001_md : list string :=
  [ "---";
    "sidebar_position: 3";
    "---";
    "";
    "# Quick Start" ].

(** [src/unnamed/part_002], lines 1 to 5. *)
Definition part_002_md : list string :=
  [ "---";
    "sidebar_position: 1";
    "---";
    "";
    "# API Overview" ].

(** [src/unnamed/part_003], lines 1 to 7. *)
Definition part_003_md : list string :=
  [ "---";
    "sidebar_position: 1";
    "title: AgentBuilder";
    "description: Complete API reference for the AgentBuilder class";
    "---";
    "";
    "# AgentBuilder" ].

(** [src/unnamed/part_003], lines 707 to 737: the section Type Definitions. *)
Definition part_003_types : list string :=
  [ "";
    "## Type Definitions";
    "";
    "```typescript";
    "interface AgentConfig {";
    "  id?: string;";
    "  name: string;";
    "  agentType: AgentType;";
    "  locale?: string;";
    "  prompt?: string;";
    "  expectedResult?: any;";
    "  tools?: Record<string, ToolConfiguration>;";
    "  flows?: AgentFlow[];";
    "  events?: any[];";
    "  settings?: Record<string, any>;";
    "  metadata?: Record<string, any>;";
    "}";
    "";
    "interface ToolConfiguration {";
    "  tool: string;";
    "  description?: string;";
    "  options?: Record<string, any>;";
    "}";
    "";
    "enum AgentType {";
    "  SmartAssistant = 'smart-assistant',";
    "  SurveyAgent = 'survey-agent',";
    "  CommerceAgent = 'commerce-agent',";
    "  Flow = 'flow'";
    "}";
    "```" ].

(** [src/unnamed/part_004], lines 1 to 346: from the head of the page to the end of the section ToolCall. *)
Definition part_004_md : list string :=
  [ "---";
    "sidebar_position: 2";
    "title: AgentExecutor";
    "description: Complete API reference for the AgentExecutor class";
    "---";
    "";
    "# AgentExecutor";
    "";
    "`AgentExecutor` orchestrates agent execution, managing message flow, tool calling, streaming, error handling, and state. It's the runtime component that brings your agent configurations to life.";
    "";
    "## Overview";
    "";
    "After building an agent with `AgentBuilder`, you use `AgentExecutor` to actually run it. The executor handles:";
    "";
    "- Message formatting and conversation context";
    "- LLM provider communication";
    "- Tool call orchestration (multi-step execution)";
    "- Streaming response delivery";
    "- Token usage tracking";
    "- Error handling and retries";
    "- Event emission for monitoring";
    "";
    "**Import**:";
    "```typescript";
    "import { AgentExecutor } from '@tajwal/build-ai-agent';";
    "// or";
    "import { AgentExecutor } from '@tajwal/build-ai-agent/execution';";
    "```";
    "";
    "**Basic Usage**:";
    "```typescript";
    "const result = await AgentExecutor.execute({";
    "  agent,";
    "  input: 'Hello, world!',";
    "  provider: llmProvider,";
    "  toolRegistry: tools";
    "});";
    "```";
    "";
    "## Static Methods";
    "";
    "The `AgentExecutor` class provides static methods for execution - you don't instantiate it.";
    "";
    "### `execute()`";
    "";
    "Executes an agent with the given input and returns the complete result after all tool calls are resolved.";
    "";
    "**Signature**:";
    "```typescript";
    "static async execute(options: ExecuteOptions): Promise<ExecutionResult>";
    "```";
    "";
    "**Parameters**:";
    "";
    "| Name | Type | Required | Description |";
    "|------|------|----------|-------------|";
    "| `options` | `ExecuteOptions` | Yes | Execution configuration object |";
    "";
    "**ExecuteOptions Interface**:";
    "";
    "```typescript";
    "interface ExecuteOptions {";
    "  agent: AgentConfig;          // Agent configuration to execute";
    "  input: string | Message[];   // User input or message history";
    "  provider: LLMProvider;       // LLM provider instance";
    "  toolRegistry?: ToolRegistry; // Optional tool registry";
    "  streaming?: boolean;         // Enable streaming (default: false)";
    "  maxSteps?: number;          // Max tool call iterations (default: 10)";
    "  temperature?: number;        // Override agent temperature";
    "  maxTokens?: number;         // Override max tokens";
    "  onEvent?: (event: ExecutionEvent) => void; // Event callback";
    "}";
    "```";
    "";
    "**Returns**: `Promise<ExecutionResult>`";
    "";
    "```typescript";
    "interface ExecutionResult {";
    "  text: string;                // Final response text";
    "  messages: Message[];         // Complete message history";
    "  toolCalls: ToolCall[];      // All tool calls made";
    "  usage: {";
    "    promptTokens: number;";
    "    completionTokens: number;";
    "    totalTokens: number;";
    "  };";
    "  finishReason: string;       // Why generation stopped";
    "  steps: number;              // Number of iterations";
    "}";
    "```";
    "";
    "**Throws**:";
    "- `Error` - If provider fails";
    "- `Error` - If tool execution fails";
    "- `Error` - If maxSteps exceeded with pending tool calls";
    "";
    "**Example - Basic Execution**:";
    "```typescript";
    "import { AgentExecutor } from '@tajwal/build-ai-agent';";
    "";
    "const result = await AgentExecutor.execute({";
    "  agent: myAgent,";
    "  input: 'What is the weather in London?',";
    "  provider: openAIProvider,";
    "  toolRegistry: tools";
    "});";
    "";
    "console.log('Response:', result.text);";
    "console.log('Tokens used:', result.usage.totalTokens);";
    "console.log('Tool calls:', result.toolCalls.length);";
    "```";
    "";
    "**Example - With Event Monitoring**:";
    "```typescript";
    "const result = await AgentExecutor.execute({";
    "  agent: myAgent,";
    "  input: 'Search for TypeScript tutorials',";
    "  provider: openAIProvider,";
    "  toolRegistry: tools,";
    "  onEvent: (event) => {";
    "    switch (event.type) {";
    "      case 'start':";
    "        console.log('Execution started');";
    "        break;";
    "      case 'tool-call':";
    "        console.log('Calling tool:', event.toolCall?.function.name);";
    "        break;";
    "      case 'tool-result':";
    "        console.log('Tool result:', event.toolResult);";
    "        break;";
    "      case 'text-complete':";
    "        console.log('Response:', event.text);";
    "        break;";
    "      case 'finish':";
    "        console.log('Usage:', event.usage);";
    "        break;";
    "      case 'error':";
    "        console.error('Error:', event.error);";
    "        break;";
    "    }";
    "  }";
    "});";
    "```";
    "";
    "**Example - Multi-Turn Conversation**:";
    "```typescript";
    "// First turn";
    "const result1 = await AgentExecutor.execute({";
    "  agent: myAgent,";
    "  input: 'Hello, my name is Alice',";
    "  provider: openAIProvider";
    "});";
    "";
    "// Second turn - include conversation history";
    "const result2 = await AgentExecutor.execute({";
    "  agent: myAgent,";
    "  input: [";
    "    ...result1.messages,";
    "    { role: 'user', content: 'What\'s my name?' }";
    "  ],";
    "  provider: openAIProvider";
    "});";
    "";
    ("console.log(result2.text); // Should reference " ++ dq ++ "Alice" ++ dq);
    "```";
    "";
    "**Example - Temperature and Token Overrides**:";
    "```typescript";
    "const result = await AgentExecutor.execute({";
    "  agent: myAgent,";
    "  input: 'Write a creative story',";
    "  provider: openAIProvider,";
    "  temperature: 0.9,    // Higher creativity";
    "  maxTokens: 500      // Limit response length";
    "});";
    "```";
    "";
    "---";
    "";
    "### `executeStream()`";
    "";
    "Executes an agent with streaming enabled, yielding response chunks in real-time.";
    "";
    "**Signature**:";
    "```typescript";
    "static async executeStream(options: ExecuteOptions): Promise<ExecutionStream>";
    "```";
    "";
    "**Parameters**:";
    "";
    "| Name | Type | Required | Description |";
    "|------|------|----------|-------------|";
    "| `options` | `ExecuteOptions` | Yes | Execution configuration (streaming enabled) |";
    "";
    "**Returns**: `Promise<ExecutionStream>`";
    "";
    "```typescript";
    "interface ExecutionStream {";
    "  textStream: AsyncIterable<string>;       // Text chunks only";
    "  fullStream: AsyncIterable<ExecutionEvent>; // All events";
    "  finalResult: Promise<ExecutionResult>;    // Complete result when done";
    "}";
    "```";
    "";
    "**Example - Basic Streaming**:";
    "```typescript";
    "const stream = await AgentExecutor.executeStream({";
    "  agent: myAgent,";
    "  input: 'Tell me a story',";
    "  provider: openAIProvider,";
    "  streaming: true";
    "});";
    "";
    "// Stream text only";
    "for await (const chunk of stream.textStream) {";
    "  process.stdout.write(chunk);";
    "}";
    "";
    "// Or handle all events";
    "for await (const event of stream.fullStream) {";
    "  if (event.type === 'text-delta') {";
    "    process.stdout.write(event.textDelta || '');";
    "  } else if (event.type === 'tool-call') {";
    "    console.log('\n[Calling tool:', event.toolCall?.function.name, ']');";
    "  }";
    "}";
    "```";
    "";
    "**Example - React Component**:";
    "```typescript";
    "import { useState, useEffect } from 'react';";
    "";
    "function ChatMessage({ message }) {";
    "  const [text, setText] = useState('');";
    "";
    "  useEffect(() => {";
    "    (async () => {";
    "      const stream = await AgentExecutor.executeStream({";
    "        agent,";
    "        input: message,";
    "        provider,";
    "        streaming: true";
    "      });";
    "";
    "      for await (const chunk of stream.textStream) {";
    "        setText(prev => prev + chunk);";
    "      }";
    "    })();";
    "  }, [message]);";
    "";
    "  return <div>{text}</div>;";
    "}";
    "```";
    "";
    "**Example - Express Server**:";
    "```typescript";
    "app.post('/chat/stream', async (req, res) => {";
    "  res.setHeader('Content-Type', 'text/event-stream');";
    "  res.setHeader('Cache-Control', 'no-cache');";
    "";
    "  const stream = await AgentExecutor.executeStream({";
    "    agent: myAgent,";
    "    input: req.body.message,";
    "    provider: openAIProvider,";
    "    streaming: true";
    "  });";
    "";
    "  for await (const event of stream.fullStream) {";
    "    res.write(`data: ${JSON.stringify(event)}\n\n`);";
    "  }";
    "";
    "  res.end();";
    "});";
    "```";
    "";
    "## Types";
    "";
    "### ExecutionEvent";
    "";
    "Events emitted during execution for monitoring and debugging.";
    "";
    "```typescript";
    "interface ExecutionEvent {";
    "  type: ExecutionEventType;";
    "  timestamp: Date;";
    "  agentId?: string;";
    "  agentName?: string;";
    "  textDelta?: string;         // For 'text-delta' events";
    "  text?: string;              // For 'text-complete' events";
    "  toolCall?: ToolCall;        // For 'tool-call' events";
    "  toolResult?: {              // For 'tool-result' events";
    "    toolCallId: string;";
    "    toolName: string;";
    "    result: any;";
    "    error?: string;";
    "  };";
    "  finishReason?: string;      // For 'finish' events";
    "  usage?: {                   // For 'finish' events";
    "    promptTokens: number;";
    "    completionTokens: number;";
    "    totalTokens: number;";
    "  };";
    "  error?: Error;              // For 'error' events";
    "}";
    "";
    "type ExecutionEventType =";
    "  | 'start'           // Execution beginning";
    "  | 'text-delta'      // Streaming text chunk";
    "  | 'text-complete'   // Complete text response";
    "  | 'tool-call'       // Tool being called";
    "  | 'tool-result'     // Tool result received";
    "  | 'finish'          // Execution complete";
    "  | 'error';          // Error occurred";
    "```";
    "";
    "### Message";
    "";
    "Standard message format for conversation history.";
    "";
    "```typescript";
    "interface Message {";
    "  role: MessageRole;           // Message role";
    "  content: string;             // Message content";
    "  name?: string;              // Tool name (for tool messages)";
    "  toolCallId?: string;        // Tool call ID (for tool messages)";
    "  toolCalls?: ToolCall[];     // Tool calls (for assistant messages)";
    "}";
    "";
    "type MessageRole = 'system' | 'user' | 'assistant' | 'tool';";
    "```";
    "";
    "### ToolCall";
    "";
    "Represents an LLM's request to call a tool.";
    "";
    "```typescript";
    "interface ToolCall {";
    "  id: string;                 // Unique call identifier";
    "  type: 'function';           // Always 'function'";
    "  function: {";
    "    name: string;             // Tool name";
    "    arguments: string;        // JSON string of arguments";
    "  };";
    "}";
    "```";
    "" ].

(** The page packed after the separator in [src/unnamed/part_004], lines 748 to 752 (the separator that opens line 748 left out). *)
Definition installation_md : list string :=
  [ "---";
    "sidebar_position: 2";
    "---";
    "";
    "# Installation" ].

End Src.

(** ** Reading text *)

Module Text.

Definition between (lo hi : nat) (c : ascii) : bool :=
  Nat.leb lo (nat_of_ascii c) && Nat.leb (nat_of_ascii c) hi.

(** The characters of a TypeScript identifier: letters, digits, [_], [$]. *)
Definition is_ident_char (c : ascii) : bool :=
  between 65 90 c || between 97 122 c || between 48 57 c
  || Nat.eqb (nat_of_ascii c) 95 || Nat.eqb (nat_of_ascii c) 36.

Fixpoint take_ident (s : string) : string :=
  match s with
  | String c s' => if is_ident_char c then String c (take_ident s') else EmptyString
  | EmptyString => EmptyString
  end.

Fixpoint drop_spaces (s : string) : string :=
  match s with
  | String c s' => if Nat.eqb (nat_of_ascii c) 32 then drop_spaces s' else s
  | EmptyString => EmptyString
  end.

(** [split_at c s]: the text before the first [c] and the text after it. *)
Fixpoint split_at (c : ascii) (s : string) : option (string * string) :=
  match s with
  | EmptyString => None
  | String d s' =>
      if Ascii.eqb c d then Some (EmptyString, s')
      else match split_at c s' with
           | Some (a, b) => Some (String d a, b)
           | None => None
           end
  end.

(** The first line that starts with [p], without [p]. *)
Fixpoint first_after (p : string) (ls : list string) : option string :=
  match ls with
  | [] => None
  | l :: rest =>
      match strip_prefix p l with
      | Some r => Some r
      | None => first_after p rest
      end
  end.

(** [mentions w ls]: some line of [ls] contains [w]. *)
Definition mentions (w : string) (ls : list string) : bool :=
  existsb (occurs w) ls.

End Text.

(** ** Markdown *)

Module Markdown.

(** The frontmatter of a page: the [key: value] lines between a first line
    [---] and the next line [---]; [None] when the page does not open with
    such a block. *)
Fixpoint fields_until_fence (ls : list string) : option (list (string * string)) :=
  match ls with
  | [] => None
  | l :: rest =>
      if String.eqb l "---" then Some []
      else match fields_until_fence rest with
           | None => None
           | Some fs =>
               match Text.split_at ":" l with
               | Some (k, v) => Some ((k, Text.drop_spaces v) :: fs)
               | None => Some fs
               end
           end
  end.

Definition frontmatter (ls : list string) : option (list (string * string)) :=
  match ls with
  | l :: rest => if String.eqb l "---" then fields_until_fence rest else None
  | [] => None
  end.

Definition has_field (k : string) (fs : list (string * string)) : bool :=
  existsb (fun kv => String.eqb k (fst kv)) fs.

(** [carries ks ls]: the page opens with a frontmatter block that has every
    field of [ks]. *)
Definition carries (ks : list string) (ls : list string) : bool :=
  match frontmatter ls with
  | Some fs => forallb (fun k => has_field k fs) ks
  | None => false
  end.

(** The lines of a page with their numbers, each marked [true] when it lies
    inside a fenced code block; the fence lines themselves are left out. *)
Fixpoint mark (inside : bool) (n : nat) (ls : list string) : list (nat * bool * string) :=
  match ls with
  | [] => []
  | l :: rest =>
      if starts_with "```" l then mark (negb inside) (S n) rest
      else (n, inside, l) :: mark inside (S n) rest
  end.

Definition snippet_lines (ls : list string) : list (nat * bool * string) :=
  filter (fun x => snd (fst x)) (mark false 1 ls).

Definition prose_lines (ls : list string) : list (nat * bool * string) :=
  filter (fun x => negb (snd (fst x))) (mark false 1 ls).

(** The top-level heading of a page. *)
Definition heading (ls : list string) : option string :=
  Text.first_after "# " (map snd (prose_lines ls)).

End Markdown.

(** ** TypeScript in the pages *)

Module Snippet.

(** The members [M] of the uses [E.M] of an enum [E] in a line. *)
Fixpoint members_used (E : string) (s : string) : list string :=
  match s with
  | EmptyString => []
  | String _ s' =>
      match strip_prefix (E ++ ".") s with
      | Some r =>
          match Text.take_ident r with
          | EmptyString => members_used E s'
          | m => m :: members_used E s'
          end
      | None => members_used E s'
      end
  end.

Definition members_used_in (E : string) (ls : list string) : list string :=
  flat_map (members_used E) ls.

(** A string literal in single quotes at the head of [s]. *)
Definition quoted (s : string) : option string :=
  match strip_prefix "'" s with
  | Some r => match Text.split_at "'" r with Some (a, _) => Some a | None => None end
  | None => None
  end.

(** One line of an enum body, [Name = 'value',]: the member and its value. *)
Definition member_of (l : string) : list (string * option string) :=
  let t := Text.drop_spaces l in
  match Text.take_ident t with
  | EmptyString => []
  | name =>
      match Text.split_at "=" t with
      | Some (_, v) => [(name, quoted (Text.drop_spaces v))]
      | None => [(name, None)]
      end
  end.

Fixpoint enum_body (ls : list string) : option (list (string * option string)) :=
  match ls with
  | [] => None
  | l :: rest =>
      if String.eqb (Text.drop_spaces l) "}" then Some []
      else match enum_body rest with
           | Some ms => Some (member_of l ++ ms)%list
           | None => None
           end
  end.

(** The members of the declaration [enum E { ... }] found in [ls]. *)
Fixpoint enum_decl (E : string) (ls : list string) : option (list (string * option string)) :=
  match ls with
  | [] => None
  | l :: rest =>
      if String.eqb l ("enum " ++ E ++ " {") then enum_body rest
      else enum_decl E rest
  end.


End Snippet.

(** ** The pages *)

Module Pages.

(** A markdown page under [src/]: the file that holds it and the line where
    it starts there, its path in the repository when the file has a name,
    a stretch of its text from its first line on, and later stretches of its
    text, each with the number of its first line. *)
Record Page : Type := {
  source : string;
  first_line : nat;
  path : option string;
  text : list string;
  later : list (nat * list string)
}.

Definition intro := {| source := "docs/intro.md"; first_line := 1;
  path := Some "docs/intro.md"; text := Src.intro_md;
  later := [] |}.
Definition overview := {| source := "docs/overview.md"; first_line := 1;
  path := Some "docs/overview.md"; text := Src.overview_md;
  later := [] |}.
Definition glossary := {| source := "docs/glossary.md"; first_line := 1;
  path := Some "docs/glossary.md"; text := Src.glossary_md;
  later := [] |}.
Definition tutorial := {| source := "docs/glossary.md"; first_line := 168;
  path := None; text := Src.tutorial_md;
  later := [] |}.
Definition tools := {| source := "docs/concepts/tools.md"; first_line := 1;
  path := Some "docs/concepts/tools.md"; text := Src.tools_md;
  later := [] |}.
Definition part_000 := {| source := "unnamed/part_000"; first_line := 1;
  path := None; text := Src.part_000_md;
  later := [] |}.
Definition part_001 := {| source := "unnamed/part_001"; first_line := 1;
  path := None; text := Src.part_001_md;
  later := [] |}.
Definition part_002 := {| source := "unnamed/part_002"; first_line := 1;
  path := None; text := Src.part_002_md;
  later := [] |}.
Definition part_003 := {| source := "unnamed/part_003"; first_line := 1;
  path := None; text := Src.part_003_md;
  later := [(707, Src.part_003_types)] |}.
Definition part_004 := {| source := "unnamed/part_004"; first_line := 1;
  path := None; text := Src.part_004_md;
  later := [] |}.
Definition installation := {| source := "unnamed/part_004"; first_line := 748;
  path := None; text := Src.installation_md;
  later := [] |}.

(** The embedded lines of a page. *)
Definition lines (p : Page) : list string :=
  (text p ++ List.concat (map snd (later p)))%list.

(** Every markdown page of the documentation found under [src/]: the four
    named files, the five files whose names are unknown, and the two pages
    that follow a separator line inside another file.  [README.md] lies
    outside the documentation tree and is no page of the site; what follows
    the separator of line 470 in [docs/concepts/tools.md] is TypeScript, not
    a page. *)
Definition pages : list Page :=
  [intro; overview; glossary; tutorial; tools;
   part_000; part_001; part_002; part_003; part_004; installation].

(** The document id of a file of the documentation tree: its path below
    [docs/] without the extension. *)
Definition doc_id_of_path (p : string) : option string :=
  match strip_prefix "docs/" p with
  | Some r => strip_suffix ".md" r
  | None => None
  end.

(** The id of a page: read off its path when it has one, else given by
    [naming]. *)
Definition page_id (naming : Page -> string) (p : Page) : option string :=
  match path p with
  | Some f => doc_id_of_path f
  | None => Some (naming p)
  end.

Definition page_ids (naming : Page -> string) : list string :=
  somes (map (page_id naming) pages).

Definition resolves (naming : Page -> string) (d : string) : bool :=
  existsb (String.eqb d) (page_ids naming).

(** The naming that gives each page without a path the sidebar id that
    matches its heading. *)
Definition by_heading (p : Page) : string :=
  match Markdown.heading (text p) with
  | Some "Simple Chatbot" => "examples/chatbot"
  | Some "Quick Start" => "quick-start"
  | Some "API Overview" => "api/overview"
  | Some "AgentBuilder" => "api/agent-builder"
  | Some "AgentExecutor" => "api/agent-executor"
  | Some "Installation" => "installation"
  | Some "Tutorial: Building a Complete Chatbot" => "tutorials/building-chatbot"
  | _ => ""
  end.

(** Two pages are the same when they start at the same line of the same
    file. *)
Definition same (p q : Page) : bool :=
  String.eqb (source p) (source q) && Nat.eqb (first_line p) (first_line q).

Definition is_one_of (l : list Page) (p : Page) : bool := existsb (same p) l.



End Pages.

From Stdlib Require QArith.

(** ** Example code of the pages *)

(** The pages carry TypeScript examples that use the SDK.  The examples
    below are embedded as they are written; a call into the SDK or the
    platform is an argument of the model. *)

(** How a promise settles: fulfilled with a value or rejected with a
    reason. *)
Inductive Settled (R E : Type) : Type :=
| Fulfilled (r : R)
| Rejected (e : E).

Arguments Fulfilled {R E} r.
Arguments Rejected {R E} e.

(** [Array.prototype.slice(start)] for an integer [start]: a negative
    [start] counts from the end, and both ends are clamped. *)
Definition slice_from {A : Type} (start : Z) (l : list A) : list A :=
  let len := Z.of_nat (List.length l) in
  let k := if (start <? 0)%Z then Z.max (len + start) 0 else Z.min start len in
  skipn (Z.to_nat k) l.

(** *** The AgentExecutor reference ([src/unnamed/part_004]) *)

Module Executor.

(** [type MessageRole] (line 329), [interface ToolCall] (lines 337 to 345,
    whose [type] is always ['function']) and [interface Message] (lines 321
    to 327). *)
Inductive MessageRole : Type := system | user | assistant | tool.

Record ToolCall : Type := {
  call_id : string;
  function_name : string;
  function_arguments : string
}.

Record Message : Type := {
  role : MessageRole;
  content : string;
  name : option string;
  toolCallId : option string;
  toolCalls : option (list ToolCall)
}.

(** The object literal [{ role, content }]. *)
Definition message (r : MessageRole) (c : string) : Message :=
  {| role := r; content := c; name := None; toolCallId := None;
     toolCalls := None |}.

(** A conversation of five messages, the first of them a system message. *)
Definition five_messages : list Message :=
  [message system "be brief"; message user "a"; message assistant "b";
   message user "c"; message assistant "d"].

(** [m.role === 'system']. *)
Definition is_system (m : Message) : bool :=
  match role m with
  | system => true
  | _ => false
  end.

Definition not_system (m : Message) : bool := negb (is_system m).

(** [truncateMessages] (lines 609 to 618), for an integer [maxMessages];
    [AnyNumber.truncateMessages] below takes every number. *)
Definition truncateMessages (messages : list Message) (maxMessages : Z)
  : list Message :=
  if (Z.of_nat (List.length messages) <=? maxMessages)%Z then messages
  else
    let systemMessages := filter is_system messages in
    let otherMessages := filter not_system messages in
    let recentMessages :=
      slice_from (- maxMessages + Z.of_nat (List.length systemMessages))
                 otherMessages in
    (systemMessages ++ recentMessages)%list.

(** What a call of [executeWithRetry] leaves behind: how it settled (it
    throws [lastError], which is [undefined] as long as no attempt has
    failed), the number of calls of [AgentExecutor.execute] it made, and the
    delays it passed to [setTimeout], in order. *)
Record RetryRun (R E : Type) : Type := {
  settled : Settled R (option E);
  calls : nat;
  delays : list Z
}.

Arguments settled {R E} _.
Arguments calls {R E} _.
Arguments delays {R E} _.

(** The delay after the failure of attempt [i]:
    [1000 * Math.pow(2, i)]. *)
Definition backoff (i : nat) : Z := (1000 * 2 ^ Z.of_nat i)%Z.

Section Retry.

Context {R E : Type}.

(** [execute i] is how the [i]-th call of [AgentExecutor.execute(options)]
    settles, counting from 0. *)
Variable execute : nat -> Settled R E.
Variable maxRetries : Z.

(** The [for] loop of lines 638 to 647 from iteration [i] on, with [left]
    iterations to go: the test [i < maxRetries] holds for exactly the first
    [Z.to_nat maxRetries] values of [i]. *)
Fixpoint retry_loop (left i : nat) (lastError : option E) (slept : list Z)
  : RetryRun R E :=
  match left with
  | O => {| settled := Rejected lastError; calls := i; delays := slept |}
  | S left' =>
      match execute i with
      | Fulfilled r => {| settled := Fulfilled r; calls := S i; delays := slept |}
      | Rejected e =>
          retry_loop left' (S i) (Some e)
            (if (Z.of_nat i <? maxRetries - 1)%Z
             then (slept ++ [backoff i])%list
             else slept)
      end
  end.

End Retry.

(** [executeWithRetry] (lines 632 to 650) for an integer [maxRetries]; the
    parameter defaults to 3 when it is left out.
    [AnyNumber.executeWithRetry] below takes every number. *)
Definition executeWithRetry {R E : Type} (execute : nat -> Settled R E)
    (maxRetries : option Z) : RetryRun R E :=
  let maxRetries := match maxRetries with Some m => m | None => 3%Z end in
  retry_loop execute maxRetries (Z.to_nat maxRetries) 0 None [].

(** [CachedProvider] (lines 586 to 601): the cache, a [Map] from keys to
    results, and the number of calls made to the underlying provider so
    far. *)
Record CachedProvider (Key Result : Type) : Type := {
  cache : Key -> option Result;
  provider_calls : nat
}.

Arguments cache {Key Result} _ _.
Arguments provider_calls {Key Result} _.

Section Caching.

Context {Options Key Result E : Type}.

(** Keys are compared as [Map] compares them. *)
Variable same_key : forall a b : Key, {a = b} + {a <> b}.
(** [this.getCacheKey], one of the methods the example leaves out. *)
Variable getCacheKey : Options -> Key.
(** [generate n options] is how the [n]-th call of
    [this.underlyingProvider.generate] settles, counting from 0. *)
Variable underlying : nat -> Options -> Settled Result E.

Definition cache_set (key : Key) (result : Result) (c : Key -> option Result)
  : Key -> option Result :=
  fun k => if same_key k key then Some result else c k.

(** A provider whose cache is empty. *)
Definition fresh : CachedProvider Key Result :=
  {| cache := fun _ => None; provider_calls := 0 |}.

(** [generate] (lines 589 to 598), one call after the other. *)
Definition generate (this : CachedProvider Key Result) (options : Options)
  : Settled Result E * CachedProvider Key Result :=
  let key := getCacheKey options in
  match cache this key with
  | Some result => (Fulfilled result, this)
  | None =>
      match underlying (provider_calls this) options with
      | Fulfilled result =>
          (Fulfilled result,
           {| cache := cache_set key result (cache this);
              provider_calls := S (provider_calls this) |})
      | Rejected e =>
          (Rejected e,
           {| cache := cache this; provider_calls := S (provider_calls this) |})
      end
  end.

(** The provider after a sequence of calls. *)
Fixpoint after (this : CachedProvider Key Result) (requests : list Options)
  : CachedProvider Key Result :=
  match requests with
  | [] => this
  | options :: rest => after (snd (generate this options)) rest
  end.

End Caching.


(** A provider that answers every prompt with the prompt and the number of
    the call. *)
Definition numbered (n : nat) (prompt : string) : Settled (string * nat) string :=
  Fulfilled (prompt, n).


End Executor.

(** *** The chatbot example ([src/unnamed/part_000]) *)

Module Chatbot.

(** A value caught by a [catch] clause, as far as the examples look at it:
    [null] or [undefined], on which every property access throws a
    [TypeError]; or any other value, with its [code] and its [message] when
    these are strings. *)
Inductive Thrown : Type :=
| Nullish
| Value (code message : option string).

(** [error.code === c]. *)
Definition code_is (c : string) (code : option string) : bool :=
  match code with
  | Some c' => String.eqb c' c
  | None => false
  end.

(** How a call ends: it returns, it ends the process with [process.exit],
    or it throws the [TypeError] of a property access on a nullish value. *)
Inductive Completion : Type :=
| Returned (s : string)
| Exited (status : Z)
| ThrewTypeError.

(** What [chatWithErrorHandling] writes with [console.error]. *)
Inductive ErrorLog : Type :=
| InvalidApiKey
| UnexpectedError (error : Thrown).

(** [chatWithErrorHandling] (lines 277 to 297).  [outcome] is how
    [executor.execute] settles for the message; the result is how the
    function completes and what it has logged. *)
Definition chatWithErrorHandling (outcome : Settled string Thrown)
  : Completion * list ErrorLog :=
  match outcome with
  | Fulfilled response => (Returned response, [])
  | Rejected Nullish => (ThrewTypeError, [])
  | Rejected (Value code message) =>
      if code_is "RATE_LIMIT" code then
        (Returned "I'm receiving too many requests. Please try again in a moment.", [])
      else if code_is "INVALID_API_KEY" code then
        (Exited 1, [InvalidApiKey])
      else if code_is "TIMEOUT" code then
        (Returned "Sorry, the request took too long. Please try again.", [])
      else
        (Returned "Sorry, something went wrong. Please try again.",
         [UnexpectedError (Value code message)])
  end.

(** [String.prototype.toLowerCase] on the letters A to Z. *)
Definition lower (c : ascii) : ascii :=
  if Text.between 65 90 c then ascii_of_nat (nat_of_ascii c + 32) else c.

Fixpoint toLowerCase (s : string) : string :=
  match s with
  | EmptyString => EmptyString
  | String c s' => String (lower c) (toLowerCase s')
  end.

(** [input.toLowerCase() === 'exit'].  No character outside A to Z lowers
    to one of the letters of ['exit'], so the test is the same when the
    other characters are left as they are. *)
Definition is_exit (input : string) : bool :=
  String.eqb (toLowerCase input) "exit".

(** What [interactiveChatbot] shows, line by line: the greeting, the prompt
    ['You: '], an answer of the bot, the message of an error (which may be
    [undefined]), and the farewell. *)
Inductive Shown : Type :=
| Ready
| Prompt
| Bot (response : string)
| Error (message : option string)
| Goodbye.

(** How a session stands when the typed lines are used up: [rl.close()]
    was called; or a question is pending; or the callback of the last
    question threw, so that [askQuestion] was not called again and
    [rl.close()] was not called either. *)
Inductive Standing : Type :=
| Closed
| Asking
| Broken.

Record Session : Type := {
  shown : list Shown;
  sent : list string;
  standing : Standing
}.

Definition show (x : Shown) (s : Session) : Session :=
  {| shown := x :: shown s; sent := sent s; standing := standing s |}.

Definition send (m : string) (s : Session) : Session :=
  {| shown := shown s; sent := m :: sent s; standing := standing s |}.

Section Loop.

(** [execute n m] is how the call of [executor.execute] settles that sends
    the message [m] after [n] earlier calls. *)
Variable execute : nat -> string -> Settled string Thrown.

(** [askQuestion] (lines 179 to 197) on the lines the user types from now
    on, after [n] calls of the executor. *)
Fixpoint askQuestion (inputs : list string) (n : nat) : Session :=
  show Prompt
    match inputs with
    | [] => {| shown := []; sent := []; standing := Asking |}
    | input :: rest =>
        if is_exit input then
          {| shown := [Goodbye]; sent := []; standing := Closed |}
        else
          send input
            match execute n input with
            | Fulfilled response => show (Bot response) (askQuestion rest (S n))
            | Rejected (Value _ message) =>
                show (Error message) (askQuestion rest (S n))
            | Rejected Nullish =>
                {| shown := []; sent := []; standing := Broken |}
            end
    end.

(** [interactiveChatbot] (lines 153 to 198): the greeting, then the loop. *)
Definition interactiveChatbot (inputs : list string) : Session :=
  show Ready (askQuestion inputs 0).

End Loop.

(** The typed lines up to the first ['exit'], and up to and including it. *)
Fixpoint before_exit (inputs : list string) : list string :=
  match inputs with
  | [] => []
  | input :: rest => if is_exit input then [] else input :: before_exit rest
  end.

Fixpoint through_exit (inputs : list string) : list string :=
  match inputs with
  | [] => []
  | input :: rest =>
      if is_exit input then [input] else input :: through_exit rest
  end.

(** An executor that echoes every message but ["boom"], on which it fails
    with an [Error] of that message. *)
Definition echo (n : nat) (m : string) : Settled string Thrown :=
  if String.eqb m "boom" then Rejected (Value None (Some "boom"))
  else Fulfilled m.

(** An executor that echoes every message, except that its second call
    rejects with [undefined]. *)
Definition faulty (n : nat) (m : string) : Settled string Thrown :=
  if Nat.eqb n 1 then Rejected Nullish else Fulfilled m.


(** **** [main] *)

(** The line feed. *)
Definition nl : string := String (ascii_of_nat 10) EmptyString.

(** The lines of a text: the stretches between line feeds. *)
Fixpoint lines_from (current : string) (s : string) : list string :=
  match s with
  | EmptyString => [current]
  | String c s' =>
      if Nat.eqb (nat_of_ascii c) 10 then current :: lines_from EmptyString s'
      else lines_from (current ++ String c EmptyString) s'
  end.

(** [console.log(a, b, ...)] writes its arguments with a space between
    them and a line feed after them; [log args] is the lines this adds. *)
Definition log (args : list string) : list string :=
  removelast (lines_from EmptyString (String.concat " " args ++ nl)).

(** The three messages that [main] sends, in order (lines 63, 72 and 81). *)
Definition questions : list string :=
  [ "Hi! Can you tell me about TypeScript?";
    "What are its main benefits?";
    "Can you show me a simple example?" ].

(** How the program ends: [main] runs to its end; or the handler of
    [main().catch] ends the process; or that handler itself throws. *)
Inductive Ending : Type :=
| Finished
| ProcessExit (status : Z)
| HandlerThrew.

(** A call [console.error('❌ Error:', error.message)]: the [message] of the
    error, kept when it is a string. *)
Inductive Reported : Type :=
| ErrorMessage (message : option string).

Record Run : Type := {
  asked : list string;
  stdout : list string;
  stderr : list Reported;
  ending : Ending
}.

Definition ask (q : string) (r : Run) : Run :=
  {| asked := q :: asked r; stdout := stdout r; stderr := stderr r;
     ending := ending r |}.

Definition print (ls : list string) (r : Run) : Run :=
  {| asked := asked r; stdout := (ls ++ stdout r)%list; stderr := stderr r;
     ending := ending r |}.

(** The handler of [main().catch] (lines 93 to 96): it passes
    [error.message] to [console.error] and ends the process with status 1;
    on [null] or [undefined] the access [error.message] throws before
    anything is printed. *)
Definition on_error (error : Thrown) : Run :=
  match error with
  | Nullish => {| asked := []; stdout := []; stderr := []; ending := HandlerThrew |}
  | Value _ message =>
      {| asked := []; stdout := []; stderr := [ErrorMessage message];
         ending := ProcessExit 1 |}
  end.

Section Main.

Variable execute : nat -> string -> Settled string Thrown.

(** The three blocks of lines 61 to 88, one per message: the call, then the
    two lines it prints; a rejection leaves [main] at once. *)
Fixpoint converse (qs : list string) (n : nat) : Run :=
  match qs with
  | [] =>
      {| asked := []; stdout := log ["✅ Conversation completed successfully!"];
         stderr := []; ending := Finished |}
  | q :: rest =>
      ask q
        match execute n q with
        | Fulfilled response =>
            print (log [("👤 User: " ++ q)%string]
                   ++ log ["🤖 Chatbot:"; response; nl])%list
                  (converse rest (S n))
        | Rejected error => on_error error
        end
  end.

(** [main] with its handler (lines 28 to 96), from the greeting on. *)
Definition main : Run :=
  print (log ["🤖 Chatbot: Hello! I'm your friendly assistant. How can I help you today?" ++ nl])
        (converse questions 0).

End Main.

(** [s] has no line feed. *)
Fixpoint single_line (s : string) : bool :=
  match s with
  | EmptyString => true
  | String c s' => negb (Nat.eqb (nat_of_ascii c) 10) && single_line s'
  end.

(** Without the spaces at its end. *)
Fixpoint rstrip (s : string) : string :=
  match s with
  | EmptyString => EmptyString
  | String c s' =>
      match rstrip s' with
      | EmptyString => if Nat.eqb (nat_of_ascii c) 32 then EmptyString
                       else String c EmptyString
      | t => String c t
      end
  end.

(** The block under the heading Expected Output (lines 126 to 137). *)
Definition expected_output : list string :=
  [ "🤖 Chatbot: Hello! I'm your friendly assistant. How can I help you today?";
    "";
    "👤 User: Hi! Can you tell me about TypeScript?";
    "🤖 Chatbot: TypeScript is a strongly typed programming language that builds on JavaScript...";
    "";
    "👤 User: What are its main benefits?";
    "🤖 Chatbot: The main benefits of TypeScript include: type safety, better tooling...";
    "";
    "👤 User: Can you show me a simple example?";
    "🤖 Chatbot: Here's a simple TypeScript example...";
    "";
    "✅ Conversation completed successfully!" ].

(** An executor that gives the three answers of the Expected Output. *)
Definition sample (n : nat) (q : string) : Settled string Thrown :=
  Fulfilled
    (nth n
       [ "TypeScript is a strongly typed programming language that builds on JavaScript...";
         "The main benefits of TypeScript include: type safety, better tooling...";
         "Here's a simple TypeScript example..." ]
       "").

(** An executor whose second call is rejected with an [Error] of message
    ["overloaded"]. *)
Definition overloaded (n : nat) (q : string) : Settled string Thrown :=
  if Nat.eqb n 1 then Rejected (Value None (Some "overloaded")) else Fulfilled "fine".

End Chatbot.

(** *** The tools page ([docs/concepts/tools.md]) *)

Module Tools.

(** A [Map<string, number>] of timestamps. *)
Definition TimeMap : Type := string -> option Z.

Definition empty : TimeMap := fun _ => None.

Definition get (k : string) (m : TimeMap) : option Z := m k.

Definition set (k : string) (v : Z) (m : TimeMap) : TimeMap :=
  fun k' => if String.eqb k' k then Some v else m k'.

(** [x || 0] for a number or [undefined]: 0 is falsy too. *)
Definition or_zero (x : option Z) : Z :=
  match x with
  | Some v => if (v =? 0)%Z then 0%Z else v
  | None => 0%Z
  end.

(** What the rate-limited tool answers: the rate-limit error, or whatever
    [performOperation] gives. *)
Inductive Answer (R : Type) : Type :=
| RateLimited
| Performed (r : R).

Arguments RateLimited {R}.
Arguments Performed {R} r.

(** The [execute] of lines 386 to 398: [now] is the value of [Date.now()],
    [perform] what [performOperation(params)] gives. *)
Definition execute {R : Type} (now : Z) (perform : R) (rateLimiter : TimeMap)
  : Answer R * TimeMap :=
  let lastCall := or_zero (get "toolName" rateLimiter) in
  if (now - lastCall <? 1000)%Z then (RateLimited, rateLimiter)
  else (Performed perform, set "toolName" now rateLimiter).

(** The times, among the calls made at [times] one after the other, at
    which the operation is performed. *)
Fixpoint performed_at (times : list Z) (rateLimiter : TimeMap) : list Z :=
  match times with
  | [] => []
  | now :: rest =>
      match execute now tt rateLimiter with
      | (RateLimited, m) => performed_at rest m
      | (Performed _, m) => now :: performed_at rest m
      end
  end.

(** Each element is at least 1000 above the one before it, [from] standing
    before the first. *)
Fixpoint spaced (from : Z) (l : list Z) : Prop :=
  match l with
  | [] => True
  | t :: rest => (from + 1000 <= t)%Z /\ spaced t rest
  end.

(** A JavaScript number, as far as comparisons see it. *)
Inductive JsNumber : Type :=
| NaN
| NegInfinity
| PosInfinity
| Finite (q : QArith_base.Q).

(** [x < c] and [x > c] for an integer constant [c]; every comparison with
    [NaN] is false. *)
Definition lt (x : JsNumber) (c : Z) : bool :=
  match x with
  | NaN => false
  | NegInfinity => true
  | PosInfinity => false
  | Finite q => negb (QArith_base.Qle_bool (QArith_base.inject_Z c) q)
  end.

Definition gt (x : JsNumber) (c : Z) : bool :=
  match x with
  | NaN => false
  | NegInfinity => false
  | PosInfinity => true
  | Finite q => negb (QArith_base.Qle_bool q (QArith_base.inject_Z c))
  end.

(** What the validating tool answers. *)
Inductive Validated (R : Type) : Type :=
| InvalidEmail
| InvalidAmount
| Processed (r : R).

Arguments InvalidEmail {R}.
Arguments InvalidAmount {R}.
Arguments Processed {R} r.

(** The [execute] of lines 404 to 417; [processPayment] is what
    [processPayment(email, amount)] gives. *)
Definition validate {R : Type} (processPayment : string -> JsNumber -> R)
    (email : string) (amount : JsNumber) : Validated R :=
  if negb (occurs "@" email) then InvalidEmail
  else if lt amount 0 || gt amount 10000 then InvalidAmount
  else Processed (processPayment email amount).

End Tools.

From Stdlib Require Qround Lqa.

(** ** More of the sources *)

Module SrcMore.

(** [src/unnamed/part_003], lines 1 to 737: from the head of the page to the end of the section Type Definitions. *)
Definition part_003_to_types : list string :=
  [ "---";
    "sidebar_position: 1";
    "title: AgentBuilder";
    "description: Complete API reference for the AgentBuilder class";
    "---";
    "";
    "# AgentBuilder";
    "";
    "`AgentBuilder` provides a fluent API for constructing and validating agent configurations. It implements the builder pattern, allowing you to chain method calls to configure complex agents in a type-safe manner.";
    "";
    "## Overview";
    "";
    "The `AgentBuilder` class is the primary way to create agent configurations. It handles validation, provides sensible defaults, and ensures configurations are complete before creating an agent.";
    "";
    "**Import**:";
    "```typescript";
    "import { AgentBuilder } from '@tajwal/build-ai-agent';";
    "// or";
    "import { AgentBuilder } from '@tajwal/build-ai-agent/core';";
    "```";
    "";
    "**Basic Usage**:";
    "```typescript";
    "const agent = new AgentBuilder()";
    "  .setType(AgentType.SmartAssistant)";
    "  .setName('My Agent')";
    "  .setPrompt('You are a helpful assistant')";
    "  .build();";
    "```";
    "";
    "## Constructor";
    "";
    "### `new AgentBuilder()`";
    "";
    "Creates a new agent builder instance with an empty configuration.";
    "";
    "**Signature**:";
    "```typescript";
    "constructor()";
    "```";
    "";
    "**Returns**: `AgentBuilder` instance";
    "";
    "**Example**:";
    "```typescript";
    "const builder = new AgentBuilder();";
    "```";
    "";
    "**Note**: You can also use static factory methods `AgentBuilder.create()` or `AgentBuilder.from(config)`.";
    "";
    "## Instance Methods";
    "";
    "### `setType()`";
    "";
    "Sets the agent type, which determines the agent's fundamental behavior and capabilities.";
    "";
    "**Signature**:";
    "```typescript";
    "setType(type: AgentType): this";
    "```";
    "";
    "**Parameters**:";
    "";
    "| Name | Type | Required | Description |";
    "|------|------|----------|-------------|";
    "| `type` | `AgentType` | Yes | The agent type enum value |";
    "";
    "**AgentType Values**:";
    "- `AgentType.SmartAssistant` - General-purpose conversational agent with tool calling";
    "- `AgentType.SurveyAgent` - Specialized for conducting surveys and collecting responses";
    "- `AgentType.CommerceAgent` - Optimized for e-commerce interactions and transactions";
    "- `AgentType.Flow` - Workflow-based agent following structured flows";
    "";
    "**Returns**: `this` (for method chaining)";
    "";
    "**Throws**: ";
    "- Error during `build()` if type is not set";
    "";
    "**Example**:";
    "```typescript";
    "builder.setType(AgentType.SmartAssistant);";
    "```";
    "";
    "**See also**: Agent Types";
    "";
    "---";
    "";
    "### `setName()`";
    "";
    "Sets the human-readable name for the agent.";
    "";
    "**Signature**:";
    "```typescript";
    "setName(name: string): this";
    "```";
    "";
    "**Parameters**:";
    "";
    "| Name | Type | Required | Description |";
    "|------|------|----------|-------------|";
    "| `name` | `string` | Yes | The agent's display name |";
    "";
    "**Returns**: `this` (for method chaining)";
    "";
    "**Throws**: ";
    "- Error during `build()` if name is not set or empty";
    "";
    "**Example**:";
    "```typescript";
    "builder.setName('Customer Support Agent');";
    "```";
    "";
    "**Validation Rules**:";
    "- Must not be empty";
    "- Must be a non-whitespace string";
    "- Recommended length: 3-50 characters";
    "";
    "---";
    "";
    "### `setId()`";
    "";
    "Sets a custom identifier for the agent. If not provided, a unique ID is auto-generated using nanoid.";
    "";
    "**Signature**:";
    "```typescript";
    "setId(id: string): this";
    "```";
    "";
    "**Parameters**:";
    "";
    "| Name | Type | Required | Description |";
    "|------|------|----------|-------------|";
    "| `id` | `string` | No | Custom agent identifier |";
    "";
    "**Returns**: `this` (for method chaining)";
    "";
    "**Example**:";
    "```typescript";
    "builder.setId('support-agent-v2');";
    "```";
    "";
    "**Best Practices**:";
    "- Use semantic IDs for production agents (e.g., `product-recommender-v1`)";
    "- Let the SDK auto-generate IDs for development/testing";
    "- IDs should be URL-safe and unique within your system";
    "";
    "---";
    "";
    "### `setPrompt()`";
    "";
    "Sets the system prompt that defines the agent's behavior, personality, and capabilities.";
    "";
    "**Signature**:";
    "```typescript";
    "setPrompt(prompt: string): this";
    "```";
    "";
    "**Parameters**:";
    "";
    "| Name | Type | Required | Description |";
    "|------|------|----------|-------------|";
    "| `prompt` | `string` | No | System prompt/instructions |";
    "";
    "**Returns**: `this` (for method chaining)";
    "";
    "**Example**:";
    "```typescript";
    "builder.setPrompt(`You are a helpful customer support agent.";
    "";
    "Guidelines:";
    "- Be professional and empathetic";
    "- Ask clarifying questions when needed";
    "- Use tools to look up information";
    "- Always confirm actions before executing`);";
    "```";
    "";
    "**Best Practices**:";
    "- Be specific about the agent's role and capabilities";
    "- Include guidelines for tool usage";
    "- Specify tone and personality";
    "- Mention any constraints or limitations";
    "- Use clear, concise language";
    "";
    "**See also**: Prompt Engineering Guide";
    "";
    "---";
    "";
    "### `addTool()`";
    "";
    "Adds a single tool to the agent's available capabilities.";
    "";
    "**Signature**:";
    "```typescript";
    "addTool(key: string, config: ToolConfiguration): this";
    "```";
    "";
    "**Parameters**:";
    "";
    "| Name | Type | Required | Description |";
    "|------|------|----------|-------------|";
    "| `key` | `string` | Yes | Unique identifier for this tool in the agent |";
    "| `config` | `ToolConfiguration` | Yes | Tool configuration object |";
    "";
    "**ToolConfiguration Type**:";
    "```typescript";
    "interface ToolConfiguration {";
    "  tool: string;              // Tool name from registry";
    "  description?: string;      // Override tool description";
    "  options?: Record<string, any>; // Tool-specific options";
    "}";
    "```";
    "";
    "**Returns**: `this` (for method chaining)";
    "";
    "**Example**:";
    "```typescript";
    "builder.addTool('search', {";
    "  tool: 'webSearch',";
    "  description: 'Search the web for information',";
    "  options: {";
    "    maxResults: 5";
    "  }";
    "});";
    "```";
    "";
    "**Note**: Tools must be registered in a `ToolRegistry` before execution.";
    "";
    "**See also**: [Tool Configuration](../concepts/tools)";
    "";
    "---";
    "";
    "### `removeTool()`";
    "";
    "Removes a tool from the agent's configuration.";
    "";
    "**Signature**:";
    "```typescript";
    "removeTool(key: string): this";
    "```";
    "";
    "**Parameters**:";
    "";
    "| Name | Type | Required | Description |";
    "|------|------|----------|-------------|";
    "| `key` | `string` | Yes | Tool key to remove |";
    "";
    "**Returns**: `this` (for method chaining)";
    "";
    "**Example**:";
    "```typescript";
    "builder.removeTool('search');";
    "```";
    "";
    "---";
    "";
    "### `setTools()`";
    "";
    "Replaces all tools with a new set.";
    "";
    "**Signature**:";
    "```typescript";
    "setTools(tools: Record<string, ToolConfiguration>): this";
    "```";
    "";
    "**Parameters**:";
    "";
    "| Name | Type | Required | Description |";
    "|------|------|----------|-------------|";
    "| `tools` | `Record<string, ToolConfiguration>` | Yes | Complete tools configuration |";
    "";
    "**Returns**: `this` (for method chaining)";
    "";
    "**Example**:";
    "```typescript";
    "builder.setTools({";
    "  search: { tool: 'webSearch' },";
    "  calculator: { tool: 'calculator' },";
    "  weather: { ";
    "    tool: 'weatherAPI',";
    "    options: { units: 'celsius' }";
    "  }";
    "});";
    "```";
    "";
    "**Warning**: This replaces **all** existing tools. Use `addTool()` to add individual tools.";
    "";
    "---";
    "";
    "### `addFlow()`";
    "";
    "Adds a flow to the agent for structured workflow execution.";
    "";
    "**Signature**:";
    "```typescript";
    "addFlow(flow: AgentFlow): this";
    "```";
    "";
    "**Parameters**:";
    "";
    "| Name | Type | Required | Description |";
    "|------|------|----------|-------------|";
    "| `flow` | `AgentFlow` | Yes | Flow configuration object |";
    "";
    "**Returns**: `this` (for method chaining)";
    "";
    "**Example**:";
    "```typescript";
    "builder.addFlow({";
    "  id: 'order-processing',";
    "  name: 'Order Processing Flow',";
    "  nodes: [...],";
    "  edges: [...]";
    "});";
    "```";
    "";
    "**See also**: Flows";
    "";
    "---";
    "";
    "### `setFlows()`";
    "";
    "Replaces all flows with a new set.";
    "";
    "**Signature**:";
    "```typescript";
    "setFlows(flows: AgentFlow[]): this";
    "```";
    "";
    "**Parameters**:";
    "";
    "| Name | Type | Required | Description |";
    "|------|------|----------|-------------|";
    "| `flows` | `AgentFlow[]` | Yes | Array of flow configurations |";
    "";
    "**Returns**: `this` (for method chaining)";
    "";
    "---";
    "";
    "### `setExpectedResult()`";
    "";
    "Sets the expected result schema for agent responses (used for structured output).";
    "";
    "**Signature**:";
    "```typescript";
    "setExpectedResult(schema: any): this";
    "```";
    "";
    "**Parameters**:";
    "";
    "| Name | Type | Required | Description |";
    "|------|------|----------|-------------|";
    "| `schema` | `any` | Yes | Zod schema or JSON schema |";
    "";
    "**Returns**: `this` (for method chaining)";
    "";
    "**Example**:";
    "```typescript";
    "import { z } from 'zod';";
    "";
    "builder.setExpectedResult(z.object({";
    "  sentiment: z.enum(['positive', 'negative', 'neutral']),";
    "  confidence: z.number().min(0).max(1),";
    "  reasoning: z.string()";
    "}));";
    "```";
    "";
    "---";
    "";
    "### `setLocale()`";
    "";
    "Sets the locale for agent responses.";
    "";
    "**Signature**:";
    "```typescript";
    "setLocale(locale: string): this";
    "```";
    "";
    "**Parameters**:";
    "";
    "| Name | Type | Required | Description |";
    "|------|------|----------|-------------|";
    "| `locale` | `string` | Yes | BCP 47 language tag (e.g., 'en', 'es', 'fr-CA') |";
    "";
    "**Returns**: `this` (for method chaining)";
    "";
    "**Default**: `'en'`";
    "";
    "**Example**:";
    "```typescript";
    "builder.setLocale('es'); // Spanish";
    "```";
    "";
    "---";
    "";
    "### `setSettings()`";
    "";
    "Sets custom settings for the agent.";
    "";
    "**Signature**:";
    "```typescript";
    "setSettings(settings: Record<string, any>): this";
    "```";
    "";
    "**Parameters**:";
    "";
    "| Name | Type | Required | Description |";
    "|------|------|----------|-------------|";
    "| `settings` | `Record<string, any>` | Yes | Arbitrary settings object |";
    "";
    "**Returns**: `this` (for method chaining)";
    "";
    "**Example**:";
    "```typescript";
    "builder.setSettings({";
    "  temperature: 0.7,";
    "  maxTokens: 2000,";
    "  useCache: true";
    "});";
    "```";
    "";
    "---";
    "";
    "### `setMetadata()`";
    "";
    "Sets metadata for the agent (for categorization, versioning, etc.).";
    "";
    "**Signature**:";
    "```typescript";
    "setMetadata(metadata: Record<string, any>): this";
    "```";
    "";
    "**Parameters**:";
    "";
    "| Name | Type | Required | Description |";
    "|------|------|----------|-------------|";
    "| `metadata` | `Record<string, any>` | Yes | Metadata object |";
    "";
    "**Returns**: `this` (for method chaining)";
    "";
    "**Example**:";
    "```typescript";
    "builder.setMetadata({";
    "  version: '2.0.0',";
    "  category: 'support',";
    "  department: 'customer-service',";
    "  createdBy: 'admin@example.com'";
    "});";
    "```";
    "";
    "---";
    "";
    "### `build()`";
    "";
    "Validates the configuration and creates the final `AgentConfig` object.";
    "";
    "**Signature**:";
    "```typescript";
    "build(): AgentConfig";
    "```";
    "";
    "**Returns**: `AgentConfig` - Complete, validated agent configuration";
    "";
    "**Throws**:";
    "- `Error` - If required fields are missing";
    "- `Error` - If configuration fails validation";
    "- `Error` - If tool configurations are invalid";
    "";
    "**Example**:";
    "```typescript";
    "const agent = builder.build();";
    "```";
    "";
    "**Validation Performed**:";
    "1. Checks that `agentType` is set";
    "2. Checks that `name` is set and non-empty";
    "3. Validates tool configurations";
    "4. Ensures all required fields have valid values";
    "";
    "**Auto-Generated Fields**:";
    "- `id` - Generated using nanoid if not provided";
    "- `locale` - Defaults to `'en'` if not set";
    "- `tools` - Defaults to `{}` if not set";
    "- `flows` - Defaults to `[]` if not set";
    "- `events` - Defaults to `[]` if not set";
    "- `settings` - Defaults to `{}` if not set";
    "- `metadata` - Defaults to `{}` if not set";
    "";
    "## Static Methods";
    "";
    "### `AgentBuilder.from()`";
    "";
    "Creates a builder pre-populated with an existing configuration.";
    "";
    "**Signature**:";
    "```typescript";
    "static from(config: AgentConfig): AgentBuilder";
    "```";
    "";
    "**Parameters**:";
    "";
    "| Name | Type | Required | Description |";
    "|------|------|----------|-------------|";
    "| `config` | `AgentConfig` | Yes | Existing agent configuration |";
    "";
    "**Returns**: `AgentBuilder` instance with loaded configuration";
    "";
    "**Example**:";
    "```typescript";
    "const existingAgent = { /* ... */ };";
    "const builder = AgentBuilder.from(existingAgent);";
    "";
    "// Modify and rebuild";
    "const updatedAgent = builder";
    "  .setPrompt('Updated prompt')";
    "  .build();";
    "```";
    "";
    "**Use Cases**:";
    "- Updating existing agents";
    "- Creating variants of agents";
    "- Agent versioning";
    "";
    "---";
    "";
    "### `AgentBuilder.create()`";
    "";
    "Factory method to create a new builder instance.";
    "";
    "**Signature**:";
    "```typescript";
    "static create(): AgentBuilder";
    "```";
    "";
    "**Returns**: New `AgentBuilder` instance";
    "";
    "**Example**:";
    "```typescript";
    "const builder = AgentBuilder.create();";
    "```";
    "";
    "**Note**: Equivalent to `new AgentBuilder()`. Provided for consistency with other SDKs.";
    "";
    "## Complete Example";
    "";
    "```typescript";
    "import { AgentBuilder, AgentType } from '@tajwal/build-ai-agent';";
    "import { z } from 'zod';";
    "";
    "// Create a comprehensive agent";
    "const agent = new AgentBuilder()";
    "  // Required fields";
    "  .setType(AgentType.SmartAssistant)";
    "  .setName('Product Recommendation Agent')";
    "  ";
    "  // System prompt";
    "  .setPrompt(`You are a product recommendation specialist.";
    "";
    "Your capabilities:";
    "- Search product catalog";
    "- Compare product features";
    "- Provide personalized recommendations";
    "- Answer product questions";
    "";
    "Guidelines:";
    "- Ask about user preferences and budget";
    "- Suggest 2-3 options with pros/cons";
    "- Use the search tool to find products";
    "- Be honest about limitations`)";
    "  ";
    "  // Tools";
    "  .addTool('search', {";
    "    tool: 'productSearch',";
    "    options: { maxResults: 10 }";
    "  })";
    "  .addTool('compare', {";
    "    tool: 'productCompare'";
    "  })";
    "  ";
    "  // Structured output";
    "  .setExpectedResult(z.object({";
    "    recommendations: z.array(z.object({";
    "      productId: z.string(),";
    "      productName: z.string(),";
    "      reason: z.string(),";
    "      confidence: z.number()";
    "    })),";
    "    reasoning: z.string()";
    "  }))";
    "  ";
    "  // Configuration";
    "  .setLocale('en')";
    "  .setSettings({";
    "    temperature: 0.7,";
    "    maxTokens: 1500";
    "  })";
    "  .setMetadata({";
    "    version: '1.0.0',";
    "    department: 'sales',";
    "    lastUpdated: new Date().toISOString()";
    "  })";
    "  ";
    "  // Build";
    "  .build();";
    "";
    "console.log('Agent ID:', agent.id);";
    "console.log('Agent Name:', agent.name);";
    "```";
    "";
    "## Common Patterns";
    "";
    "### Conditional Configuration";
    "";
    "```typescript";
    "const builder = new AgentBuilder()";
    "  .setType(AgentType.SmartAssistant)";
    "  .setName('Agent');";
    "";
    "// Add tools based on environment";
    "if (process.env.ENABLE_WEB_SEARCH === 'true') {";
    "  builder.addTool('search', { tool: 'webSearch' });";
    "}";
    "";
    "if (process.env.ENABLE_DATABASE === 'true') {";
    "  builder.addTool('db', { tool: 'databaseQuery' });";
    "}";
    "";
    "const agent = builder.build();";
    "```";
    "";
    "### Configuration Templates";
    "";
    "```typescript";
    "// Base configuration";
    "const baseConfig = new AgentBuilder()";
    "  .setType(AgentType.SmartAssistant)";
    "  .setLocale('en')";
    "  .setSettings({ temperature: 0.7 });";
    "";
    "// Specialized agents";
    "const supportAgent = AgentBuilder.from(baseConfig.build())";
    "  .setName('Support Agent')";
    "  .setPrompt('You are a support specialist')";
    "  .addTool('tickets', { tool: 'ticketSystem' })";
    "  .build();";
    "";
    "const salesAgent = AgentBuilder.from(baseConfig.build())";
    "  .setName('Sales Agent')";
    "  .setPrompt('You are a sales representative')";
    "  .addTool('crm', { tool: 'crmSystem' })";
    "  .build();";
    "```";
    "";
    "### Dynamic Tool Addition";
    "";
    "```typescript";
    "const tools = [";
    "  { key: 'search', config: { tool: 'webSearch' } },";
    "  { key: 'calculator', config: { tool: 'calculator' } },";
    "  { key: 'weather', config: { tool: 'weatherAPI' } }";
    "];";
    "";
    "const builder = new AgentBuilder()";
    "  .setType(AgentType.SmartAssistant)";
    "  .setName('Multi-Tool Agent');";
    "";
    "tools.forEach(({ key, config }) => {";
    "  builder.addTool(key, config);";
    "});";
    "";
    "const agent = builder.build();";
    "```";
    "";
    "## Error Handling";
    "";
    "### Validation Errors";
    "";
    "```typescript";
    "try {";
    "  const agent = new AgentBuilder()";
    "    // Missing required fields";
    "    .build();";
    "} catch (error) {";
    "  console.error('Validation failed:', error.message);";
    ("  // " ++ dq ++ "Agent configuration validation failed: name is required" ++ dq);
    "}";
    "```";
    "";
    "### Tool Validation Errors";
    "";
    "```typescript";
    "try {";
    "  const agent = new AgentBuilder()";
    "    .setType(AgentType.SmartAssistant)";
    "    .setName('Agent')";
    "    .addTool('invalid', { tool: '' }) // Empty tool name";
    "    .build();";
    "} catch (error) {";
    "  console.error('Tool validation failed:', error.message);";
    "}";
    "```";
    "";
    "## Performance Considerations";
    "";
    "- **Builder Reuse**: Don't reuse builder instances across multiple agent creations. Create a new builder for each agent.";
    "- **Large Configurations**: For agents with many tools, consider using `setTools()` instead of multiple `addTool()` calls.";
    "- **Validation Cost**: Validation is performed once during `build()`. Configuration changes after building require a new builder instance.";
    "";
    "## Type Definitions";
    "";
    "```typescript";
    "interface AgentConfig {";
    "  id?: string;";
    "  name: string;";
    "  agentType: AgentType;";
    "  locale?: string;";
    "  prompt?: string;";
    "  expectedResult?: any;";
    "  tools?: Record<string, ToolConfiguration>;";
    "  flows?: AgentFlow[];";
    "  events?: any[];";
    "  settings?: Record<string, any>;";
    "  metadata?: Record<string, any>;";
    "}";
    "";
    "interface ToolConfiguration {";
    "  tool: string;";
    "  description?: string;";
    "  options?: Record<string, any>;";
    "}";
    "";
    "enum AgentType {";
    "  SmartAssistant = 'smart-assistant',";
    "  SurveyAgent = 'survey-agent',";
    "  CommerceAgent = 'commerce-agent',";
    "  Flow = 'flow'";
    "}";
    "```" ].


(** The lines of the pages that link to the page on agents, with their
    files and line numbers. *)
Definition links_to_agents : list (string * nat * string) :=
  [ ("docs/overview.md", 181,
     "- **[Core Concepts](./concepts/agents)** - Understand agents, tools, and flows");
    ("docs/glossary.md", 158,
     "- [Core Concepts: Agents](./concepts/agents)");
    ("unnamed/part_001", 318,
     "1. **[Core Concepts](./concepts/agents)** - Understand agents, tools, and flows");
    ("unnamed/part_004", 840,
     "2. Learn about [Core Concepts](./concepts/agents)") ].

End SrcMore.

(** ** The pages of the repository *)

Module Repository.

(** Modelled from the spec: the markdown file [docs/concepts/agents.md].
    The sidebars list its id first in the category Core Concepts and four
    pages link to it, but the file is not among the sources.  By the spec
    every sidebar document id resolves to an existing markdown file, and
    each markdown file becomes one documentation page.  Only the path of the
    page is modelled; nothing is said about its text. *)
Definition agents : Pages.Page :=
  {| Pages.source := "docs/concepts/agents.md"; Pages.first_line := 1;
     Pages.path := Some "docs/concepts/agents.md"; Pages.text := [];
     Pages.later := [] |}.

(** The pages among the sources, and the page that is not. *)
Definition pages : list Pages.Page := (Pages.pages ++ [agents])%list.



End Repository.

(** ** Limits that are not integers *)

(** [truncateMessages] and [executeWithRetry] take a [number].  The
    definitions of [Executor] are their restrictions to integers; here the
    limit is any number, a finite one being taken as the rational it
    denotes. *)
Module AnyNumber.

(** The number of a length or of an index. *)
Definition of_nat (n : nat) : QArith_base.Q :=
  QArith_base.inject_Z (Z.of_nat n).

(** [n <= x] and [n < x] for a length or an index [n]; every comparison
    with [NaN] is false. *)
Definition le (n : nat) (x : Tools.JsNumber) : bool :=
  match x with
  | Tools.NaN => false
  | Tools.NegInfinity => false
  | Tools.PosInfinity => true
  | Tools.Finite q => QArith_base.Qle_bool (of_nat n) q
  end.

Definition lt (n : nat) (x : Tools.JsNumber) : bool :=
  match x with
  | Tools.NaN => false
  | Tools.NegInfinity => false
  | Tools.PosInfinity => true
  | Tools.Finite q => negb (QArith_base.Qle_bool q (of_nat n))
  end.

(** [x - 1]. *)
Definition minus_one (x : Tools.JsNumber) : Tools.JsNumber :=
  match x with
  | Tools.Finite q =>
      Tools.Finite (QArith_base.Qminus q (QArith_base.inject_Z 1))
  | other => other
  end.

(** [-x + n]. *)
Definition neg_plus (x : Tools.JsNumber) (n : nat) : Tools.JsNumber :=
  match x with
  | Tools.NaN => Tools.NaN
  | Tools.NegInfinity => Tools.PosInfinity
  | Tools.PosInfinity => Tools.NegInfinity
  | Tools.Finite q =>
      Tools.Finite (QArith_base.Qplus (QArith_base.Qopp q) (of_nat n))
  end.

(** The integer of a finite number: its fraction is dropped. *)
Definition to_integer (q : QArith_base.Q) : Z :=
  if QArith_base.Qle_bool (QArith_base.inject_Z 0) q
  then Qround.Qfloor q else Qround.Qceiling q.

(** [Array.prototype.slice(start)] for any number: [NaN] counts as 0, and
    the infinities are clamped to the ends. *)
Definition slice {A : Type} (start : Tools.JsNumber) (l : list A) : list A :=
  match start with
  | Tools.NaN => l
  | Tools.NegInfinity => l
  | Tools.PosInfinity => []
  | Tools.Finite q => slice_from (to_integer q) l
  end.

(** [truncateMessages] ([src/unnamed/part_004], lines 609 to 618). *)
Definition truncateMessages (messages : list Executor.Message)
    (maxMessages : Tools.JsNumber) : list Executor.Message :=
  if le (List.length messages) maxMessages then messages
  else
    let systemMessages := filter Executor.is_system messages in
    let otherMessages := filter Executor.not_system messages in
    let recentMessages :=
      slice (neg_plus maxMessages (List.length systemMessages)) otherMessages in
    (systemMessages ++ recentMessages)%list.

Section Retry.

Context {R E : Type}.

(** [execute i] is how the [i]-th call of [AgentExecutor.execute(options)]
    settles, counting from 0. *)
Variable execute : nat -> Settled R E.
Variable maxRetries : Tools.JsNumber.

(** The [for] loop of lines 638 to 647 from iteration [i] on.  With
    [Infinity] for [maxRetries] the loop ends only with a success, so the
    model counts the attempts it may still make: [None] when [fuel]
    attempts were not enough. *)
Fixpoint retry_loop (fuel i : nat) (lastError : option E) (slept : list Z)
  : option (Executor.RetryRun R E) :=
  if lt i maxRetries then
    match fuel with
    | O => None
    | S fuel' =>
        match execute i with
        | Fulfilled r =>
            Some {| Executor.settled := Fulfilled r; Executor.calls := S i;
                    Executor.delays := slept |}
        | Rejected e =>
            retry_loop fuel' (S i) (Some e)
              (if lt i (minus_one maxRetries)
               then (slept ++ [Executor.backoff i])%list
               else slept)
        end
    end
  else
    Some {| Executor.settled := Rejected lastError; Executor.calls := i;
            Executor.delays := slept |}.

End Retry.

(** [executeWithRetry] (lines 632 to 650); [maxRetries] is 3 when it is
    left out. *)
Definition executeWithRetry {R E : Type} (execute : nat -> Settled R E)
    (maxRetries : option Tools.JsNumber) (fuel : nat)
  : option (Executor.RetryRun R E) :=
  let maxRetries :=
    match maxRetries with
    | Some m => m
    | None => Tools.Finite (QArith_base.inject_Z 3)
    end in
  retry_loop execute maxRetries fuel 0 None [].

(** The number 5/2. *)
Definition two_and_a_half : Tools.JsNumber :=
  Tools.Finite (QArith_base.Qmake 5 2).

(** Two system messages and two others. *)
Definition four_messages : list Executor.Message :=
  [Executor.message Executor.system "s1"; Executor.message Executor.system "s2";
   Executor.message Executor.user "u1"; Executor.message Executor.user "u2"].

End AnyNumber.

(** * Properties *)

Import DocusaurusConfig.

(** ** Unit checks of the readers *)

Example year_2025 : show_year 2025 = "2025".
Proof. reflexivity. Qed.

Example api_sidebar_items :
  Sidebars.sidebar "apiSidebar" Sidebars.sidebars
  = [Sidebars.Doc "api/overview";
     Sidebars.Category "Core API"
       [Sidebars.Doc "api/agent-builder"; Sidebars.Doc "api/agent-executor"]].
Proof. reflexivity. Qed.

Example later_property_wins :
  field "a" (JObj [("a", JBool true); ("a", JBool false)]) = Some (JBool false).
Proof. reflexivity. Qed.

Example intro_frontmatter :
  Markdown.frontmatter Src.intro_md = Some [("sidebar_position", "1")].
Proof. reflexivity. Qed.

Example tools_id : Pages.doc_id_of_path "docs/concepts/tools.md" = Some "concepts/tools".
Proof. reflexivity. Qed.

Example readme_no_id : Pages.doc_id_of_path "README.md" = None.
Proof. reflexivity. Qed.

Example members_of_a_line :
  Snippet.members_used "AgentType" "    .setType(AgentType.Chatbot)" = ["Chatbot"].
Proof. reflexivity. Qed.

Example fence_marks :
  Markdown.mark false 1 ["a"; "```ts"; "b"; "```"; "c"]
  = [(1, false, "a"); (3, true, "b"); (5, false, "c")].
Proof. reflexivity. Qed.

Example interface_in_snippet :
  In (337, true, "interface ToolCall {") (Markdown.snippet_lines Src.part_004_md).
Proof. apply (nth_error_In _ 203). vm_compute. reflexivity. Qed.

(** ** General lemmas *)

Section Lists.

Context {A : Type}.

Lemma somes_length (l : list (option A)) : List.length (somes l) <= List.length l.
Proof.
  induction l as [| [a |] l IH]; simpl; lia.
Qed.

Lemma forallb_false_exists (f : A -> bool) (l : list A) :
  forallb f l = false -> exists x, In x l /\ f x = false.
Proof.
  induction l as [| a l IH]; simpl; [discriminate |].
  destruct (f a) eqn:Fa; simpl.
  - intros H. destruct (IH H) as (x & Hx & Hf). exists x. auto.
  - intros _. exists a. auto.
Qed.

End Lists.

Lemma existsb_eqb_In (d : string) (l : list string) :
  existsb (String.eqb d) l = true -> In d l.
Proof.
  rewrite existsb_exists. intros (x & Hx & E).
  apply String.eqb_eq in E. now subst.
Qed.

(** The document ids of the sidebars, in order. *)
Lemma all_doc_ids_eq :
  Sidebars.all_doc_ids Sidebars.sidebars
  = ["overview"; "intro"; "installation"; "quick-start"; "concepts/agents";
     "concepts/tools"; "tutorials/building-chatbot"; "examples/chatbot";
     "glossary"; "api/overview"; "api/agent-builder"; "api/agent-executor"].
Proof. reflexivity. Qed.

Lemma all_doc_ids_NoDup : NoDup (Sidebars.all_doc_ids Sidebars.sidebars).
Proof.
  rewrite all_doc_ids_eq.
  repeat (constructor; [simpl; intuition discriminate |]).
  constructor.
Qed.

Lemma page_ids_length (naming : Pages.Page -> string) :
  List.length (Pages.page_ids naming) <= 11.
Proof.
  unfold Pages.page_ids.
  eapply Nat.le_trans; [apply somes_length |].
  rewrite length_map. reflexivity.
Qed.

(** ** The sidebars and the pages *)

(** The pages among the sources alone do not give every document id of the
    sidebars a page: the two sidebars name twelve distinct documents and the
    sources hold eleven pages, so whatever ids the pages without a known
    path have, some sidebar id has no page among them.  When each such page
    takes the id that matches its heading, the one id left over is
    [concepts/agents]. *)
Theorem sidebar_id_without_page :
  (forall naming : Pages.Page -> string,
     exists d, In d (Sidebars.all_doc_ids Sidebars.sidebars)
               /\ Pages.resolves naming d = false)
  /\ filter (fun d => negb (Pages.resolves Pages.by_heading d))
            (Sidebars.all_doc_ids Sidebars.sidebars)
     = ["concepts/agents"].
Proof.
  split; [| vm_compute; reflexivity].
  intros naming.
  destruct (forallb (Pages.resolves naming) (Sidebars.all_doc_ids Sidebars.sidebars))
    eqn:All.
  - exfalso.
    assert (Hincl : incl (Sidebars.all_doc_ids Sidebars.sidebars) (Pages.page_ids naming)).
    { intros d Hd. rewrite forallb_forall in All.
      apply existsb_eqb_In. exact (All d Hd). }
    apply (NoDup_incl_length all_doc_ids_NoDup) in Hincl.
    pose proof (page_ids_length naming) as Hlen.
    rewrite all_doc_ids_eq in Hincl. simpl in Hincl. lia.
  - apply forallb_false_exists in All. exact All.
Qed.



(** The four links to the page on agents. *)
Example agents_is_linked :
  forallb (fun l => occurs "](./concepts/agents)" (snd l)) SrcMore.links_to_agents
  = true.
Proof. reflexivity. Qed.



(** ** The site configuration *)

(** C2.  The configuration sets [onBrokenLinks] to ['throw'], the setting
    under which the generator's broken-link check fails the build. *)
Theorem onBrokenLinks_throw (fullYear : Z) :
  field "onBrokenLinks" (config fullYear) = Some (JStr "throw").
Proof. reflexivity. Qed.

(** C3, as stated, fails: no category of the sidebars is labelled
    "API Reference". *)
Lemma no_category_API_Reference :
  ~ (In "Core Concepts" (Sidebars.all_category_labels Sidebars.sidebars)
     /\ In "Tutorials" (Sidebars.all_category_labels Sidebars.sidebars)
     /\ In "Examples" (Sidebars.all_category_labels Sidebars.sidebars)
     /\ In "API Reference" (Sidebars.all_category_labels Sidebars.sidebars)).
Proof.
  intros (_ & _ & _ & H). simpl in H. intuition discriminate.
Qed.

(** C3, amended.  The sidebar definition file declares two ordered trees of
    document ids grouped into categories, and the category labels it
    declares are "Core Concepts", "Tutorials", "Examples" (in
    [tutorialSidebar]) and "Core API" (in [apiSidebar]). *)
Theorem sidebars_tree :
  keys Sidebars.sidebars = ["tutorialSidebar"; "apiSidebar"]
  /\ Sidebars.sidebar "tutorialSidebar" Sidebars.sidebars
     = [Sidebars.Doc "overview"; Sidebars.Doc "intro"; Sidebars.Doc "installation";
        Sidebars.Doc "quick-start";
        Sidebars.Category "Core Concepts"
          [Sidebars.Doc "concepts/agents"; Sidebars.Doc "concepts/tools"];
        Sidebars.Category "Tutorials" [Sidebars.Doc "tutorials/building-chatbot"];
        Sidebars.Category "Examples" [Sidebars.Doc "examples/chatbot"];
        Sidebars.Doc "glossary"]
  /\ Sidebars.sidebar "apiSidebar" Sidebars.sidebars
     = [Sidebars.Doc "api/overview";
        Sidebars.Category "Core API"
          [Sidebars.Doc "api/agent-builder"; Sidebars.Doc "api/agent-executor"]]
  /\ flat_map Sidebars.category_labels
       (Sidebars.sidebar "tutorialSidebar" Sidebars.sidebars)
     = ["Core Concepts"; "Tutorials"; "Examples"]
  /\ flat_map Sidebars.category_labels
       (Sidebars.sidebar "apiSidebar" Sidebars.sidebars)
     = ["Core API"]
  /\ Sidebars.all_category_labels Sidebars.sidebars
     = ["Core Concepts"; "Tutorials"; "Examples"; "Core API"].
Proof. repeat split; reflexivity. Qed.

(** C6.  The configuration declares a title, a tagline, a base URL, the
    organization and project names used for hosting, navigation bar
    entries, footer links, and the syntax-highlighting themes. *)
Theorem config_declares_metadata (fullYear : Z) :
  let c := config fullYear in
  field "title" c = Some (JStr "Build AI Agent SDK")
  /\ field "tagline" c
     = Some (JStr "Framework-agnostic SDK for building intelligent AI agents")
  /\ field "baseUrl" c = Some (JStr "/agent-sdk-docs/")
  /\ field "organizationName" c = Some (JStr "LinuxDevil")
  /\ field "projectName" c = Some (JStr "agent-sdk-docs")
  /\ map (string_field "label") (navbar_items c)
     = [Some "Docs"; Some "API"; Some "GitHub"; Some "npm"]
  /\ map (string_field "title") (footer_links c) = [Some "Docs"; Some "More"]
  /\ map (fun col => List.length (elements_at ["items"] col)) (footer_links c) = [3; 1]
  /\ at_path ["themeConfig"; "prism"; "theme"] c = Some (JRef "prismThemes" "github")
  /\ at_path ["themeConfig"; "prism"; "darkTheme"] c
     = Some (JRef "prismThemes" "dracula").
Proof. repeat split; reflexivity. Qed.

Lemma doc_sidebar_ids_eq (fullYear : Z) :
  doc_sidebar_ids (config fullYear) = ["tutorialSidebar"; "apiSidebar"].
Proof. reflexivity. Qed.

Lemma footer_docs_targets_eq (fullYear : Z) :
  footer_targets "Docs" (config fullYear)
  = ["/docs/intro"; "/docs/api/overview"; "/docs/examples/chatbot"].
Proof. reflexivity. Qed.

(** C8.  The [sidebarId] of every navbar item of type ['docSidebar'] is a
    key of the exported sidebars object. *)
Theorem navbar_sidebar_is_declared (fullYear : Z) (sidebarId : string) :
  In sidebarId (doc_sidebar_ids (config fullYear)) ->
  In sidebarId (keys Sidebars.sidebars).
Proof.
  rewrite doc_sidebar_ids_eq. simpl.
  intros [<- | [<- | []]]; auto.
Qed.

Lemma navbar_sidebar_is_declared_witness :
  In "apiSidebar" (doc_sidebar_ids (config 2025))
  /\ In "apiSidebar" (keys Sidebars.sidebars).
Proof.
  assert (H : In "apiSidebar" (doc_sidebar_ids (config 2025))).
  { simpl. right. left. reflexivity. }
  split; [exact H | exact (navbar_sidebar_is_declared 2025 "apiSidebar" H)].
Defined.

(** C9.  The address of the published site given in the README is the
    [url] of the configuration followed by its [baseUrl]. *)
Theorem readme_site_url (fullYear : Z) :
  exists url baseUrl,
    field "url" (config fullYear) = Some (JStr url)
    /\ field "baseUrl" (config fullYear) = Some (JStr baseUrl)
    /\ Text.first_after "The site will be available at: " Src.readme_md
       = Some (url ++ baseUrl)
    /\ url ++ baseUrl = "https://linuxdevil.github.io/agent-sdk-docs/".
Proof.
  exists "https://linuxdevil.github.io", "/agent-sdk-docs/".
  repeat split; reflexivity.
Qed.

(** C10.  Every link of the footer column 'Docs' points below [/docs/], and
    what follows [/docs/] is a document id of the sidebars. *)
Theorem footer_doc_link_in_sidebars (fullYear : Z) (target : string) :
  In target (footer_targets "Docs" (config fullYear)) ->
  exists d, strip_prefix "/docs/" target = Some d
            /\ In d (Sidebars.all_doc_ids Sidebars.sidebars).
Proof.
  rewrite footer_docs_targets_eq, all_doc_ids_eq. simpl.
  intros [<- | [<- | [<- | []]]]; eexists; (split; [reflexivity |]);
    simpl; tauto.
Qed.

Lemma footer_doc_link_in_sidebars_witness :
  In "/docs/api/overview" (footer_targets "Docs" (config 2025))
  /\ exists d, strip_prefix "/docs/" "/docs/api/overview" = Some d
               /\ In d (Sidebars.all_doc_ids Sidebars.sidebars).
Proof.
  assert (H : In "/docs/api/overview" (footer_targets "Docs" (config 2025))).
  { simpl. right. left. reflexivity. }
  split; [exact H | exact (footer_doc_link_in_sidebars 2025 "/docs/api/overview" H)].
Defined.

(** ** The pages *)

Ltac one_of_pages :=
  unfold Pages.pages; repeat first [left; reflexivity | right].

(** C4.  Two pages disagree on the values of [AgentType]: the page headed
    "Simple Chatbot" uses the member [AgentType.Chatbot], and the enum
    declared on the page headed "AgentBuilder" has exactly the members
    [SmartAssistant], [SurveyAgent], [CommerceAgent] and [Flow], none of
    which is named or valued [Chatbot]. *)
Theorem agent_type_differs_between_pages :
  In Pages.part_000 Pages.pages /\ In Pages.part_003 Pages.pages
  /\ Markdown.heading (Pages.text Pages.part_000) = Some "Simple Chatbot"
  /\ Markdown.heading (Pages.text Pages.part_003) = Some "AgentBuilder"
  /\ exists members,
       Snippet.enum_decl "AgentType" (Pages.lines Pages.part_003) = Some members
       /\ map fst members = ["SmartAssistant"; "SurveyAgent"; "CommerceAgent"; "Flow"]
       /\ In "Chatbot" (Snippet.members_used_in "AgentType" (Pages.lines Pages.part_000))
       /\ ~ In "Chatbot" (map fst members)
       /\ ~ In (Some "Chatbot") (map snd members).
Proof.
  split; [one_of_pages |]. split; [one_of_pages |].
  split; [reflexivity |]. split; [reflexivity |].
  eexists. split; [vm_compute; reflexivity |].
  split; [reflexivity |].
  split; [vm_compute; left; reflexivity |].
  split; simpl; intuition discriminate.
Qed.

(** C5, as stated, fails: the frontmatter of [docs/intro.md] has neither a
    [title] nor a [description]. *)
Lemma intro_without_title :
  ~ (forall p, In p Pages.pages ->
       Markdown.carries ["sidebar_position"; "title"; "description"] (Pages.text p)
       = true).
Proof.
  intros H. specialize (H Pages.intro).
  assert (E : Markdown.carries ["sidebar_position"; "title"; "description"]
                (Pages.text Pages.intro) = false) by reflexivity.
  rewrite H in E; [discriminate | one_of_pages].
Qed.

(** C5, amended.  Every markdown page carries a frontmatter block with the
    field [sidebar_position]; [title] and [description] come together, on
    the five pages headed "What is Build AI Agent SDK?", "Glossary",
    "Tutorial: Building a Complete Chatbot", "AgentBuilder" and
    "AgentExecutor", and on no other page. *)
Theorem frontmatter_fields (p : Pages.Page) :
  In p Pages.pages ->
  Markdown.carries ["sidebar_position"] (Pages.text p) = true
  /\ Markdown.carries ["title"] (Pages.text p)
     = Markdown.carries ["description"] (Pages.text p)
  /\ Markdown.carries ["title"; "description"] (Pages.text p)
     = Pages.is_one_of
         [Pages.overview; Pages.glossary; Pages.tutorial; Pages.part_003; Pages.part_004]
         p.
Proof.
  unfold Pages.pages. simpl.
  intros H.
  repeat (destruct H as [<- | H]; [repeat split; vm_compute; reflexivity |]).
  destruct H.
Qed.

Lemma frontmatter_fields_witness :
  In Pages.intro Pages.pages
  /\ Markdown.carries ["sidebar_position"] (Pages.text Pages.intro) = true.
Proof.
  assert (H : In Pages.intro Pages.pages) by (left; reflexivity).
  split; [exact H | exact (proj1 (frontmatter_fields Pages.intro H))].
Defined.

(** The longer stretch of the page headed AgentBuilder starts with the
    head of the page and ends with its type definitions. *)
Example part_003_stretches :
  firstn 7 SrcMore.part_003_to_types = Src.part_003_md
  /\ skipn 706 SrcMore.part_003_to_types = Src.part_003_types.
Proof. split; reflexivity. Qed.



(** * The example code of the pages *)

(** ** [truncateMessages] *)

Section Truncate.

Import Executor.

Lemma system_other_length (ms : list Message) :
  List.length (filter is_system ms) + List.length (filter not_system ms)
  = List.length ms.
Proof.
  induction ms as [| m ms IH]; simpl; [reflexivity |].
  unfold not_system in *. destruct (is_system m); simpl; lia.
Qed.





(** The two halves of the result of a truncation that drops something. *)
Lemma truncate_parts (ms : list Message) (maxMessages : Z) :
  (Z.of_nat (List.length ms) > maxMessages)%Z ->
  truncateMessages ms maxMessages
  = (filter is_system ms
     ++ slice_from (- maxMessages + Z.of_nat (List.length (filter is_system ms)))
          (filter not_system ms))%list.
Proof.
  intros H. unfold truncateMessages.
  destruct (Z.leb_spec (Z.of_nat (List.length ms)) maxMessages); [lia | reflexivity].
Qed.

Lemma truncate_length_short (ms : list Message) (maxMessages : Z) :
  (Z.of_nat (List.length ms) > maxMessages)%Z ->
  (Z.of_nat (List.length (filter is_system ms)) < maxMessages)%Z ->
  Z.of_nat (List.length (truncateMessages ms maxMessages)) = maxMessages.
Proof.
  intros Hlong Hsys. rewrite truncate_parts by assumption.
  pose proof (system_other_length ms) as Hsplit.
  rewrite length_app. unfold slice_from.
  destruct (Z.ltb_spec (- maxMessages + Z.of_nat (List.length (filter is_system ms))) 0);
    [| lia].
  rewrite length_skipn. lia.
Qed.




(** X4.  When the number of system messages equals [maxMessages], a
    conversation that is too long loses nothing: the result is all the
    system messages followed by all the others, so a limit of 0 on a
    conversation without system messages returns the whole conversation. *)
Theorem truncate_limit_equal_to_system (ms : list Message) (maxMessages : Z) :
  (Z.of_nat (List.length ms) > maxMessages)%Z ->
  Z.of_nat (List.length (filter is_system ms)) = maxMessages ->
  truncateMessages ms maxMessages
  = (filter is_system ms ++ filter not_system ms)%list.
Proof.
  intros Hlong Hsys. rewrite truncate_parts by assumption.
  f_equal. unfold slice_from.
  replace (- maxMessages + Z.of_nat (List.length (filter is_system ms)))%Z
    with 0%Z by lia.
  simpl. rewrite Z.min_l by lia. reflexivity.
Qed.

Lemma truncate_limit_equal_to_system_witness :
  truncateMessages [message user "a"; message assistant "b"] 0
  = [message user "a"; message assistant "b"].
Proof.
  apply (truncate_limit_equal_to_system [message user "a"; message assistant "b"] 0);
    simpl; lia.
Defined.

(** For an integer limit: the result respects the limit exactly when the
    conversation already fits or has fewer system messages than the limit. *)
Lemma truncate_limit_integer (ms : list Message) (maxMessages : Z) :
  (Z.of_nat (List.length (truncateMessages ms maxMessages)) <= maxMessages)%Z
  <-> ((Z.of_nat (List.length ms) <= maxMessages)%Z
       \/ (Z.of_nat (List.length (filter is_system ms)) < maxMessages)%Z).
Proof.
  destruct (Z.leb_spec (Z.of_nat (List.length ms)) maxMessages) as [Hfit | Hlong].
  - unfold truncateMessages.
    destruct (Z.leb_spec (Z.of_nat (List.length ms)) maxMessages); [| lia].
    tauto.
  - destruct (Z.ltb_spec (Z.of_nat (List.length (filter is_system ms))) maxMessages)
      as [Hsys | Hsys].
    + rewrite truncate_length_short by lia. lia.
    + split; [| lia]. intros Hle. exfalso.
      rewrite truncate_parts in Hle by lia.
      rewrite length_app in Hle.
      destruct (Z.eq_dec (Z.of_nat (List.length (filter is_system ms))) maxMessages)
        as [Heq | Hne].
      * pose proof (system_other_length ms).
        unfold slice_from in Hle.
        replace (- maxMessages + Z.of_nat (List.length (filter is_system ms)))%Z
          with 0%Z in Hle by lia.
        simpl in Hle. rewrite Z.min_l in Hle by lia. simpl in Hle. lia.
      * lia.
Qed.



End Truncate.

(** ** [executeWithRetry] *)

Section RetryFacts.

Import Executor.

Context {R E : Type}.
Variable execute : nat -> Settled R E.











End RetryFacts.



(** ** The chatbot example *)

Section ChatbotFacts.

Import Chatbot.

Example exit_in_any_case :
  map is_exit ["exit"; "EXIT"; "Exit"; "exit "; "quit"; ""]
  = [true; true; true; false; false; false].
Proof. reflexivity. Qed.

Lemma code_is_eq (c : string) (code : option string) :
  code_is c code = true <-> code = Some c.
Proof.
  destruct code as [c' |]; simpl.
  - rewrite String.eqb_eq. split; [now intros -> | now intros [= ->]].
  - split; discriminate.
Qed.

(** X11.  [chatWithErrorHandling] ends the process exactly when the
    executor rejects with the code ['INVALID_API_KEY'], and then with
    status 1; it throws exactly when the executor rejects with [null] or
    [undefined]; in every other case it returns a string. *)
Theorem chat_error_completion (outcome : Settled string Thrown) :
  (forall status, fst (chatWithErrorHandling outcome) = Exited status ->
     status = 1%Z)
  /\ ((exists status, fst (chatWithErrorHandling outcome) = Exited status)
      <-> exists message,
            outcome = Rejected (Value (Some "INVALID_API_KEY") message))
  /\ (fst (chatWithErrorHandling outcome) = ThrewTypeError
      <-> outcome = Rejected Nullish).
Proof.
  destruct outcome as [response | [| code message]]; simpl.
  - repeat split; try discriminate; intros [x Hx]; discriminate.
  - repeat split; try discriminate; intros [x Hx]; discriminate.
  - destruct (code_is "RATE_LIMIT" code) eqn:Hrate;
      [| destruct (code_is "INVALID_API_KEY" code) eqn:Hkey;
         [| destruct (code_is "TIMEOUT" code) eqn:Htime]]; simpl.
    + apply code_is_eq in Hrate. subst code.
      repeat split; try discriminate; intros [x Hx]; discriminate.
    + apply code_is_eq in Hkey. subst code.
      repeat split; try discriminate.
      * now intros status [= <-].
      * intros _. now exists message.
      * intros _. now exists 1%Z.
    + apply code_is_eq in Htime. subst code.
      repeat split; try discriminate; intros [x Hx]; discriminate.
    + repeat split; try discriminate.
      * intros [x Hx]; discriminate.
      * intros [m [= -> _]]. discriminate.
Qed.

Variable execute : nat -> string -> Settled string Thrown.

Lemma askQuestion_through_exit (inputs : list string) :
  forall n, askQuestion execute inputs n
            = askQuestion execute (through_exit inputs) n.
Proof.
  induction inputs as [| input rest IH]; intros n; [reflexivity |].
  simpl. destruct (is_exit input) eqn:Hexit; simpl; rewrite Hexit; [reflexivity |].
  destruct (execute n input) as [response | [| code message]];
    try rewrite IH; reflexivity.
Qed.

(** X12.  What is typed after the first ['exit'] (in any letter case) is
    never read: the session is the one of the lines up to and including
    that ['exit']. *)
Theorem interactive_stops_at_exit (inputs : list string) :
  interactiveChatbot execute inputs
  = interactiveChatbot execute (through_exit inputs).
Proof.
  unfold interactiveChatbot. now rewrite askQuestion_through_exit.
Qed.

Lemma askQuestion_sent (inputs : list string) :
  (forall n m, execute n m <> Rejected Nullish) ->
  forall n,
    sent (askQuestion execute inputs n) = before_exit inputs
    /\ standing (askQuestion execute inputs n)
       = (if existsb is_exit inputs then Closed else Asking).
Proof.
  intros Hsafe. induction inputs as [| input rest IH]; intros n.
  - split; reflexivity.
  - simpl. destruct (is_exit input) eqn:Hexit; simpl; [split; reflexivity |].
    destruct (execute n input) as [response | [| code message]] eqn:Hex;
      [| exfalso; exact (Hsafe n input Hex) |];
      simpl; destruct (IH (S n)) as [Hs Hst]; rewrite Hs, Hst; split; reflexivity.
Qed.

(** X13.  As long as the executor never rejects with [null] or
    [undefined], every line typed before the first ['exit'] is sent to the
    executor exactly once and in order, whether earlier calls failed or
    not; the interface is closed when ['exit'] was typed, and a question is
    pending otherwise. *)
Theorem interactive_sends_every_line (inputs : list string) :
  (forall n m, execute n m <> Rejected Nullish) ->
  sent (interactiveChatbot execute inputs) = before_exit inputs
  /\ standing (interactiveChatbot execute inputs)
     = (if existsb is_exit inputs then Closed else Asking).
Proof.
  intros Hsafe. unfold interactiveChatbot. simpl.
  now apply askQuestion_sent.
Qed.

(** X14.  When the executor rejects a line with [null] or [undefined], the
    loop breaks there: that line is the last one sent, no error is shown for
    it, no further question is asked and [rl.close()] is not called,
    whatever is typed afterwards. *)
Theorem interactive_breaks_on_nullish (before after : list string) (input : string) :
  before_exit (before ++ [input]) = (before ++ [input])%list ->
  (forall n m, n < List.length before -> execute n m <> Rejected Nullish) ->
  execute (List.length before) input = Rejected Nullish ->
  let s := interactiveChatbot execute (before ++ input :: after) in
  sent s = (before ++ [input])%list
  /\ standing s = Broken
  /\ List.length (filter (fun x => match x with Prompt => true | _ => false end)
                         (shown s))
     = S (List.length before)
  /\ List.length (filter (fun x => match x with Error _ => true | Bot _ => true
                                           | _ => false end) (shown s))
     = List.length before.
Proof.
  intros Hnoexit Hsafe Hnull. unfold interactiveChatbot. cbv zeta. simpl.
  assert (G : forall k,
             (forall n m, k <= n < k + List.length before ->
                          execute n m <> Rejected Nullish) ->
             execute (k + List.length before) input = Rejected Nullish ->
             let s := askQuestion execute (before ++ input :: after) k in
             sent s = (before ++ [input])%list
             /\ standing s = Broken
             /\ List.length (filter (fun x => match x with Prompt => true | _ => false end)
                                    (shown s))
                = S (List.length before)
             /\ List.length (filter (fun x => match x with Error _ => true
                                                      | Bot _ => true
                                                      | _ => false end) (shown s))
                = List.length before).
  { clear Hsafe Hnull. revert Hnoexit.
    induction before as [| b before' IH]; intros Hnoexit k Hsafe Hnull; cbv zeta.
    - simpl in *. rewrite Nat.add_0_r in Hnull.
      destruct (is_exit input); [discriminate |]. simpl.
      rewrite Hnull. simpl. repeat split; reflexivity.
    - simpl in Hnoexit. simpl app. simpl askQuestion.
      destruct (is_exit b); [discriminate |].
      injection Hnoexit as Hnoexit.
      assert (Hb : execute k b <> Rejected Nullish) by (apply Hsafe; simpl; lia).
      specialize (IH Hnoexit (S k)).
      cbv zeta in IH.
      destruct IH as (Hs & Hst & Hp & He).
      { intros n m Hn. apply Hsafe. simpl. lia. }
      { replace (S k + List.length before') with (k + List.length (b :: before'))
          by (simpl; lia). exact Hnull. }
      destruct (execute k b) as [response | [| code message]];
        [| contradiction |]; simpl; rewrite Hs, Hst, Hp, He; repeat split. }
  apply (G 0); [intros n m Hn; apply Hsafe; lia | exact Hnull].
Qed.

End ChatbotFacts.

Lemma interactive_sends_every_line_witness :
  Chatbot.sent (Chatbot.interactiveChatbot Chatbot.echo ["hi"; "boom"; "Exit"; "more"])
  = ["hi"; "boom"]
  /\ Chatbot.standing
       (Chatbot.interactiveChatbot Chatbot.echo ["hi"; "boom"; "Exit"; "more"])
     = Chatbot.Closed.
Proof.
  apply (interactive_sends_every_line Chatbot.echo ["hi"; "boom"; "Exit"; "more"]).
  intros n m. unfold Chatbot.echo. destruct (String.eqb m "boom"); discriminate.
Defined.

Lemma interactive_breaks_on_nullish_witness :
  let s := Chatbot.interactiveChatbot Chatbot.faulty ["a"; "b"; "c"] in
  Chatbot.sent s = ["a"; "b"] /\ Chatbot.standing s = Chatbot.Broken.
Proof.
  pose proof (interactive_breaks_on_nullish Chatbot.faulty ["a"] ["c"] "b") as H.
  cbv zeta in *.
  destruct H as (Hs & Hst & _).
  - reflexivity.
  - intros n m Hn. simpl in Hn.
    assert (n = 0) by lia. subst n. discriminate.
  - reflexivity.
  - split; [exact Hs | exact Hst].
Defined.

(** ** The tools page *)

Section ToolsFacts.

Import Tools.

Lemma or_zero_some (v : Z) : or_zero (Some v) = v.
Proof.
  unfold or_zero. destruct (Z.eqb_spec v 0); congruence.
Qed.

Lemma last_call_after_set (now : Z) (m : TimeMap) :
  or_zero (get "toolName" (set "toolName" now m)) = now.
Proof.
  unfold get, set. simpl. apply or_zero_some.
Qed.

Lemma performed_at_spaced (times : list Z) :
  forall m, spaced (or_zero (get "toolName" m)) (performed_at times m).
Proof.
  induction times as [| now rest IH]; intros m; simpl; [exact I |].
  unfold execute.
  destruct (Z.ltb_spec (now - or_zero (get "toolName" m)) 1000) as [Hearly | Hlate].
  - apply IH.
  - simpl. split; [lia |].
    rewrite <- (last_call_after_set now m) at 1. apply IH.
Qed.

(** X15.  Whatever the times of the calls, even with a clock that jumps
    back, two consecutive runs of the operation are at least 1000
    milliseconds apart, and on a fresh limiter no call before time 1000 runs
    it. *)
Theorem rate_limit_spacing (times : list Z) :
  spaced 0 (performed_at times empty).
Proof.
  exact (performed_at_spaced times empty).
Qed.

(** X16.  Calls that come too early are refused without moving the
    window: after a run at time [t], any number of calls before [t + 1000]
    are all refused, and the next call at [t + 1000] or later runs. *)
Theorem early_calls_do_not_postpone (m : TimeMap) (early : list Z) (now : Z) :
  Forall (fun x => (x < or_zero (get "toolName" m) + 1000)%Z) early ->
  (or_zero (get "toolName" m) + 1000 <= now)%Z ->
  performed_at (early ++ [now]) m = [now].
Proof.
  intros Hearly Hnow. induction Hearly as [| x early Hx Hrest IH]; simpl.
  - unfold execute.
    destruct (Z.ltb_spec (now - or_zero (get "toolName" m)) 1000); [lia | reflexivity].
  - unfold execute at 1.
    destruct (Z.ltb_spec (x - or_zero (get "toolName" m)) 1000); [exact IH | lia].
Qed.

(** X17.  The payment is processed exactly when the email contains ['@']
    and the amount is not below 0 and not above 10000; both bounds are
    accepted, and so is [NaN], for which both comparisons are false. *)
Theorem payment_processed_iff {R : Type} (processPayment : string -> JsNumber -> R)
    (email : string) (amount : JsNumber) :
  (exists r, validate processPayment email amount = Processed r)
  <-> occurs "@" email = true
      /\ (amount = NaN
          \/ exists q, amount = Finite q
                       /\ QArith_base.Qle (QArith_base.inject_Z 0) q
                       /\ QArith_base.Qle q (QArith_base.inject_Z 10000)).
Proof.
  unfold validate.
  destruct (occurs "@" email); simpl;
    [| split; [intros [r Hr]; discriminate | intros [H _]; discriminate]].
  destruct amount as [| | | q]; simpl.
  - split; [intros _; split; [reflexivity | now left] | intros _; eexists; reflexivity].
  - split; [intros [r Hr]; discriminate |].
    intros [_ [H | (q & H & _)]]; discriminate.
  - split; [intros [r Hr]; discriminate |].
    intros [_ [H | (q & H & _)]]; discriminate.
  - destruct (QArith_base.Qle_bool (QArith_base.inject_Z 0) q) eqn:Hlo;
      destruct (QArith_base.Qle_bool q (QArith_base.inject_Z 10000)) eqn:Hhi; simpl.
    + apply QArith_base.Qle_bool_iff in Hlo, Hhi.
      split; [| intros _; eexists; reflexivity].
      intros _. split; [reflexivity |]. right. exists q. auto.
    + split; [intros [r Hr]; discriminate |].
      intros [_ [H | (q' & [= <-] & _ & Hle)]]; [discriminate |].
      apply QArith_base.Qle_bool_iff in Hle. congruence.
    + split; [intros [r Hr]; discriminate |].
      intros [_ [H | (q' & [= <-] & Hle & _)]]; [discriminate |].
      apply QArith_base.Qle_bool_iff in Hle. congruence.
    + split; [intros [r Hr]; discriminate |].
      intros [_ [H | (q' & [= <-] & Hle & _)]]; [discriminate |].
      apply QArith_base.Qle_bool_iff in Hle. congruence.
Qed.

End ToolsFacts.

Lemma early_calls_do_not_postpone_witness :
  Tools.performed_at [5300; 5900; 4000; 6000]%Z
    (Tools.set "toolName" 5000%Z Tools.empty)
  = [6000%Z].
Proof.
  apply (early_calls_do_not_postpone (Tools.set "toolName" 5000%Z Tools.empty)
           [5300; 5900; 4000]%Z 6000%Z).
  - repeat constructor.
  - simpl. lia.
Defined.

(** ** [main] of the chatbot example *)

Section MainFacts.

Import Chatbot.

Lemma append_snoc (a : string) (c : ascii) (b : string) :
  (a ++ String c EmptyString) ++ b = a ++ String c b.
Proof.
  induction a as [| d a IH]; simpl; [reflexivity | now rewrite IH].
Qed.

Lemma append_assoc (a b c : string) : (a ++ b) ++ c = a ++ (b ++ c).
Proof.
  induction a as [| d a IH]; simpl; [reflexivity | now f_equal].
Qed.

Lemma lines_from_single (s : string) :
  single_line s = true ->
  forall current rest,
    lines_from current (s ++ rest) = lines_from (current ++ s) rest.
Proof.
  induction s as [| c s IH]; simpl; intros Hs current rest.
  - f_equal. induction current as [| d cur IHc]; simpl; [reflexivity | now rewrite <- IHc].
  - apply andb_true_iff in Hs. destruct Hs as [Hc Hs].
    destruct (Nat.eqb (nat_of_ascii c) 10); [discriminate |].
    rewrite IH by assumption. now rewrite append_snoc.
Qed.

Lemma log_answer (response : string) :
  single_line response = true ->
  log ["🤖 Chatbot:"; response; nl] = ["🤖 Chatbot: " ++ response ++ " "; ""].
Proof.
  intros Hs. unfold log. cbn [String.concat].
  change (("🤖 Chatbot:" ++ " " ++ response ++ " " ++ nl) ++ nl)
    with ("🤖 Chatbot: " ++ ((response ++ " " ++ nl) ++ nl)).
  rewrite (append_assoc response).
  rewrite (lines_from_single "🤖 Chatbot: ") by reflexivity.
  rewrite lines_from_single by assumption.
  reflexivity.
Qed.

Variable execute : nat -> string -> Settled string Thrown.

(** X18.  When the three calls succeed with answers of one line each,
    [main] sends the three messages in order, writes nothing to the error
    stream, runs to its end, and prints the greeting, then for each message
    the user's line, the bot's line (with a space at its end) and an empty
    line, and last the closing line: the Expected Output of the page, up to
    the spaces at the ends of lines. *)
Theorem main_prints_conversation (r1 r2 r3 : string) :
  execute 0 "Hi! Can you tell me about TypeScript?" = Fulfilled r1 ->
  execute 1 "What are its main benefits?" = Fulfilled r2 ->
  execute 2 "Can you show me a simple example?" = Fulfilled r3 ->
  single_line r1 = true -> single_line r2 = true -> single_line r3 = true ->
  main execute
  = {| asked := questions;
       stdout :=
         [ "🤖 Chatbot: Hello! I'm your friendly assistant. How can I help you today?";
           "";
           "👤 User: Hi! Can you tell me about TypeScript?";
           "🤖 Chatbot: " ++ r1 ++ " ";
           "";
           "👤 User: What are its main benefits?";
           "🤖 Chatbot: " ++ r2 ++ " ";
           "";
           "👤 User: Can you show me a simple example?";
           "🤖 Chatbot: " ++ r3 ++ " ";
           "";
           "✅ Conversation completed successfully!" ];
       stderr := [];
       ending := Finished |}.
Proof.
  intros H1 H2 H3 S1 S2 S3.
  unfold main, questions. cbn [converse].
  rewrite H1, H2, H3.
  rewrite !log_answer by assumption.
  reflexivity.
Qed.

(** X19.  The first rejected call ends the conversation: [main] has sent
    the messages up to that one and no other.  When the reason is [null] or
    [undefined], the handler throws on [error.message]: nothing is reported
    and [process.exit] is not called.  For every other reason the handler
    reports the message of the error and the process ends with status 1. *)
Theorem main_stops_at_first_rejection (k : nat) (error : Thrown) :
  k < 3 ->
  (forall j, j < k -> exists r, execute j (nth j questions "") = Fulfilled r) ->
  execute k (nth k questions "") = Rejected error ->
  asked (main execute) = firstn (S k) questions
  /\ match error with
     | Nullish =>
         stderr (main execute) = [] /\ ending (main execute) = HandlerThrew
     | Value _ message =>
         stderr (main execute) = [ErrorMessage message]
         /\ ending (main execute) = ProcessExit 1
     end.
Proof.
  intros Hk Hok Hfail.
  unfold main, questions in *. cbn [converse].
  destruct k as [| [| [| k]]]; [| | | lia]; cbn [nth] in *.
  - rewrite Hfail. destruct error; repeat split.
  - destruct (Hok 0 ltac:(lia)) as [r0 H0]. cbn [nth] in H0.
    rewrite H0, Hfail. destruct error; repeat split.
  - destruct (Hok 0 ltac:(lia)) as [r0 H0]. cbn [nth] in H0.
    destruct (Hok 1 ltac:(lia)) as [r1 H1]. cbn [nth] in H1.
    rewrite H0, H1, Hfail. destruct error; repeat split.
Qed.

End MainFacts.

Lemma main_prints_conversation_witness :
  map Chatbot.rstrip (Chatbot.stdout (Chatbot.main Chatbot.sample))
  = Chatbot.expected_output.
Proof.
  rewrite (main_prints_conversation Chatbot.sample
             "TypeScript is a strongly typed programming language that builds on JavaScript..."
             "The main benefits of TypeScript include: type safety, better tooling..."
             "Here's a simple TypeScript example...");
    reflexivity.
Defined.

Lemma main_stops_at_first_rejection_witness :
  Chatbot.asked (Chatbot.main Chatbot.overloaded)
  = ["Hi! Can you tell me about TypeScript?"; "What are its main benefits?"]
  /\ Chatbot.stderr (Chatbot.main Chatbot.overloaded)
     = [Chatbot.ErrorMessage (Some "overloaded")]
  /\ Chatbot.ending (Chatbot.main Chatbot.overloaded) = Chatbot.ProcessExit 1.
Proof.
  apply (main_stops_at_first_rejection Chatbot.overloaded 1
           (Chatbot.Value None (Some "overloaded"))).
  - lia.
  - intros j Hj. assert (j = 0) by lia. subst j. exists "fine". reflexivity.
  - reflexivity.
Defined.

(** ** [CachedProvider] *)

Section CachingFacts.

Import Executor.

Context {Options Key Result E : Type}.
Variable same_key : forall a b : Key, {a = b} + {a <> b}.
Variable getCacheKey : Options -> Key.
Variable underlying : nat -> Options -> Settled Result E.

#[local] Abbreviation generate := (generate same_key getCacheKey underlying).
#[local] Abbreviation after := (after same_key getCacheKey underlying).

Lemma generate_keeps_entries (this : CachedProvider Key Result) (options : Options)
    (k : Key) (r : Result) :
  cache this k = Some r -> cache (snd (generate this options)) k = Some r.
Proof.
  intros Hk. unfold Executor.generate.
  destruct (cache this (getCacheKey options)) as [hit |] eqn:Hhit; [exact Hk |].
  destruct (underlying (provider_calls this) options) as [result | e]; simpl;
    [| exact Hk].
  unfold cache_set. destruct (same_key k (getCacheKey options)) as [-> | _];
    [congruence | exact Hk].
Qed.

Lemma after_keeps_entries (requests : list Options) :
  forall (this : CachedProvider Key Result) (k : Key) (r : Result),
    cache this k = Some r -> cache (after this requests) k = Some r.
Proof.
  induction requests as [| options rest IH]; intros this k r Hk; simpl;
    [exact Hk |].
  apply IH, generate_keeps_entries, Hk.
Qed.

Lemma generate_fulfilled_caches (this this1 : CachedProvider Key Result)
    (options : Options) (r : Result) :
  generate this options = (Fulfilled r, this1) ->
  cache this1 (getCacheKey options) = Some r.
Proof.
  unfold Executor.generate.
  destruct (cache this (getCacheKey options)) as [hit |] eqn:Hhit.
  - intros [= <- <-]. exact Hhit.
  - destruct (underlying (provider_calls this) options) as [result | e];
      intros [= <- <-]. simpl. unfold cache_set.
    destruct (same_key (getCacheKey options) (getCacheKey options));
      [reflexivity | contradiction].
Qed.

(** X20.  Once [generate] has answered a request, every later request with
    the same cache key gets that same result, whatever was requested in
    between, and the underlying provider is not called for it. *)
Theorem cached_result_is_stable (this this1 : CachedProvider Key Result)
    (options : Options) (r : Result) (between : list Options) (again : Options) :
  generate this options = (Fulfilled r, this1) ->
  getCacheKey again = getCacheKey options ->
  generate (after this1 between) again = (Fulfilled r, after this1 between).
Proof.
  intros Hgen Hkey.
  apply generate_fulfilled_caches in Hgen.
  apply (after_keeps_entries between) in Hgen.
  unfold Executor.generate at 1. rewrite Hkey, Hgen. reflexivity.
Qed.



End CachingFacts.

Lemma cached_result_is_stable_witness :
  Executor.generate string_dec (fun p => p) Executor.numbered
    (Executor.after string_dec (fun p => p) Executor.numbered
       {| Executor.cache := Executor.cache_set string_dec "a" ("a", 0) (fun _ => None);
          Executor.provider_calls := 1 |}
       ["b"; "c"])
    "a"
  = (Fulfilled ("a", 0),
     Executor.after string_dec (fun p => p) Executor.numbered
       {| Executor.cache := Executor.cache_set string_dec "a" ("a", 0) (fun _ => None);
          Executor.provider_calls := 1 |}
       ["b"; "c"]).
Proof.
  apply (cached_result_is_stable string_dec (fun p => p) Executor.numbered
           Executor.fresh _ "a" ("a", 0) ["b"; "c"] "a"); reflexivity.
Defined.


(** ** Limits that are not integers *)

Section NumberFacts.

Import QArith_base Qround Lqa.
Import Executor.
#[local] Open Scope Q_scope.
#[local] Coercion inject_Z : Z >-> Q.

Lemma floor_ge (q : Q) (z : Z) : (z <= Qfloor q)%Z <-> z <= q.
Proof.
  split.
  - intros H. rewrite Zle_Qle in H. pose proof (Qfloor_le q). lra.
  - intros H. destruct (Z_le_gt_dec z (Qfloor q)) as [Hle | Hgt]; [exact Hle |].
    exfalso. assert (Hz : (Qfloor q + 1 <= z)%Z) by lia.
    rewrite Zle_Qle in Hz. pose proof (Qlt_floor q). lra.
Qed.

Lemma ceiling_gt (q : Q) (z : Z) : (z < Qceiling q)%Z <-> z < q.
Proof.
  split.
  - intros H. assert (Hz : (z <= Qceiling q - 1)%Z) by lia.
    rewrite Zle_Qle in Hz. pose proof (Qceiling_lt q). lra.
  - intros H. rewrite Zlt_Qlt. pose proof (Qle_ceiling q). lra.
Qed.

Lemma floor_unique (q : Q) (z : Z) : z <= q -> q < (z + 1)%Z -> Qfloor q = z.
Proof.
  intros Hlo Hhi.
  apply floor_ge in Hlo.
  assert (Hup : ~ ((z + 1)%Z <= q)) by lra.
  rewrite <- floor_ge in Hup. lia.
Qed.


Ltac push_inject :=
  unfold AnyNumber.of_nat, Z.sub in *;
  rewrite ?inject_Z_plus, ?inject_Z_opp in *;
  change (inject_Z 1) with 1 in *;
  change (inject_Z 0) with 0 in *.

Lemma le_finite (n : nat) (q : Q) :
  AnyNumber.le n (Tools.Finite q) = (Z.of_nat n <=? Qfloor q)%Z.
Proof.
  unfold AnyNumber.le, AnyNumber.of_nat.
  destruct (Qle_bool (Z.of_nat n) q) eqn:Hle; symmetry.
  - apply Qle_bool_iff, floor_ge in Hle. now apply Z.leb_le.
  - apply Z.leb_gt. apply Z.nle_gt. intros H. apply floor_ge, Qle_bool_iff in H.
    congruence.
Qed.

Lemma to_integer_below_zero (q : Q) (s : nat) :
  Z.of_nat s < q ->
  AnyNumber.to_integer (- q + AnyNumber.of_nat s) = (- Qfloor q + Z.of_nat s)%Z.
Proof.
  intros Hs. unfold AnyNumber.to_integer.
  destruct (Qle_bool (inject_Z 0) (- q + AnyNumber.of_nat s)) eqn:Hpos.
  - apply Qle_bool_iff in Hpos. push_inject. lra.
  - unfold Qceiling.
    rewrite (floor_unique _ (Qfloor q - Z.of_nat s)); [lia | |].
    + pose proof (Qfloor_le q). push_inject. lra.
    + pose proof (Qlt_floor q). push_inject. lra.
Qed.

(** Above the number of system messages, a limit counts as its integer
    part. *)
Lemma truncate_above_system (ms : list Message) (q : Q) :
  Z.of_nat (List.length (filter is_system ms)) < q ->
  AnyNumber.truncateMessages ms (Tools.Finite q)
  = Executor.truncateMessages ms (Qfloor q).
Proof.
  intros Hs. unfold AnyNumber.truncateMessages, Executor.truncateMessages.
  rewrite le_finite.
  destruct (Z.of_nat (List.length ms) <=? Qfloor q)%Z; [reflexivity |].
  cbn [AnyNumber.neg_plus AnyNumber.slice].
  now rewrite to_integer_below_zero.
Qed.

Lemma to_integer_Z (z : Z) : AnyNumber.to_integer (inject_Z z) = z.
Proof.
  unfold AnyNumber.to_integer.
  destruct (Qle_bool (inject_Z 0) z); [apply Qfloor_Z | apply Qceiling_Z].
Qed.

(** On an integer limit [AnyNumber.truncateMessages] is
    [Executor.truncateMessages]. *)
Lemma truncate_integer (ms : list Message) (m : Z) :
  AnyNumber.truncateMessages ms (Tools.Finite (inject_Z m))
  = Executor.truncateMessages ms m.
Proof.
  unfold AnyNumber.truncateMessages, Executor.truncateMessages.
  rewrite le_finite, Qfloor_Z.
  destruct (Z.of_nat (List.length ms) <=? m)%Z; [reflexivity |].
  cbn [AnyNumber.neg_plus AnyNumber.slice]. unfold AnyNumber.of_nat.
  now rewrite <- inject_Z_opp, <- inject_Z_plus, to_integer_Z.
Qed.

(** X1.  When the conversation has more messages than [maxMessages] and
    [maxMessages] is at least one above the number of system messages, the
    result has as many messages as the integer part of [maxMessages]:
    [maxMessages] itself for an integer limit, 2 for a limit of 2.5. *)
Theorem truncate_exact_length (ms : list Message) (q : Q) :
  AnyNumber.le (List.length ms) (Tools.Finite q) = false ->
  AnyNumber.le (S (List.length (filter is_system ms))) (Tools.Finite q) = true ->
  Z.of_nat (List.length (AnyNumber.truncateMessages ms (Tools.Finite q)))
  = Qfloor q.
Proof.
  rewrite !le_finite. intros Hlong Hsys.
  apply Z.leb_gt in Hlong. apply Z.leb_le in Hsys.
  rewrite truncate_above_system.
  - apply truncate_length_short; lia.
  - assert (H : (Z.of_nat (List.length (filter is_system ms)) + 1 <= Qfloor q)%Z) by lia.
    apply floor_ge in H. push_inject. lra.
Qed.


(** X5.  For every number [maxMessages], the result has at most
    [maxMessages] messages exactly when the conversation already fits or
    [maxMessages] is at least one above the number of system messages; so a
    limit of 2.5 on two system messages and two others is exceeded, and so
    is every limit that is [NaN]. *)
Theorem truncate_respects_limit_iff (ms : list Message) (maxMessages : Tools.JsNumber) :
  AnyNumber.le (List.length (AnyNumber.truncateMessages ms maxMessages)) maxMessages
  = true
  <-> (AnyNumber.le (List.length ms) maxMessages = true
       \/ AnyNumber.le (S (List.length (filter is_system ms))) maxMessages = true).
Proof.
  destruct maxMessages as [| | | q].
  - simpl. split; [discriminate | intros [H | H]; discriminate].
  - simpl. split; [discriminate | intros [H | H]; discriminate].
  - simpl. tauto.
  - destruct (Qlt_le_dec (Z.of_nat (List.length (filter is_system ms))) q)
      as [Habove | Hbelow].
    + rewrite truncate_above_system by assumption.
      rewrite !le_finite, !Z.leb_le, Nat2Z.inj_succ.
      rewrite truncate_limit_integer. lia.
    + destruct (AnyNumber.le (List.length ms) (Tools.Finite q)) eqn:Hfit.
      * unfold AnyNumber.truncateMessages. rewrite Hfit. tauto.
      * assert (Hsys : AnyNumber.le (S (List.length (filter is_system ms)))
                         (Tools.Finite q) = false).
        { rewrite le_finite. apply Z.leb_gt. apply Z.nle_gt. intros H.
          apply floor_ge in H. rewrite Nat2Z.inj_succ in H.
          unfold Z.succ in H. push_inject. lra. }
        rewrite Hsys.
        assert (Hover : AnyNumber.le
                          (List.length (AnyNumber.truncateMessages ms (Tools.Finite q)))
                          (Tools.Finite q) = false).
        { unfold AnyNumber.truncateMessages. rewrite Hfit.
          cbn [AnyNumber.neg_plus AnyNumber.slice].
          rewrite le_finite in *. apply Z.leb_gt in Hfit. apply Z.leb_gt.
          unfold AnyNumber.to_integer.
          destruct (Qle_bool (inject_Z 0)
                      (- q + AnyNumber.of_nat (List.length (filter is_system ms))))
            eqn:Hpos.
          2:{ exfalso. assert (Hle : 0 <= - q + Z.of_nat (List.length (filter is_system ms)))
                by lra.
              apply Qle_bool_iff in Hle. unfold AnyNumber.of_nat in Hpos.
              change (inject_Z 0) with 0 in Hpos. congruence. }
          set (y := - q + AnyNumber.of_nat (List.length (filter is_system ms))) in *.
          assert (Ht0 : (0 <= Qfloor y)%Z).
          { apply floor_ge. apply Qle_bool_iff in Hpos. exact Hpos. }
          assert (Htop : (Qfloor q <= Z.of_nat (List.length (filter is_system ms))
                                      - Qfloor y)%Z).
          { pose proof (Qfloor_le y) as Hy. pose proof (Qfloor_le q) as Hq.
            rewrite Zle_Qle. subst y. push_inject. lra. }
          pose proof (system_other_length ms) as Hsplit.
          rewrite length_app. unfold slice_from.
          destruct (Z.ltb_spec (Qfloor y) 0); [lia |].
          rewrite length_skipn. lia. }
        rewrite Hover. split; [discriminate | intros [H | H]; discriminate].
Qed.


(** *** [executeWithRetry] *)

Lemma lt_finite (i : nat) (q : Q) :
  AnyNumber.lt i (Tools.Finite q) = Nat.ltb i (Z.to_nat (Qceiling q)).
Proof.
  unfold AnyNumber.lt, AnyNumber.of_nat.
  destruct (Qle_bool q (Z.of_nat i)) eqn:Hle; symmetry; simpl.
  - apply Qle_bool_iff in Hle. apply Nat.ltb_ge.
    destruct (Z.ltb_spec (Z.of_nat i) (Qceiling q)) as [Hlt | Hge]; [| lia].
    apply ceiling_gt in Hlt. lra.
  - apply Nat.ltb_lt.
    assert (Hlt : Z.of_nat i < q).
    { apply Qnot_le_lt. intros H. apply Qle_bool_iff in H. congruence. }
    apply ceiling_gt in Hlt. lia.
Qed.

Lemma lt_minus_one (i : nat) (q : Q) :
  AnyNumber.lt i (AnyNumber.minus_one (Tools.Finite q))
  = (Z.of_nat i <? Qceiling q - 1)%Z.
Proof.
  cbn [AnyNumber.minus_one]. unfold AnyNumber.lt, AnyNumber.of_nat.
  destruct (Qle_bool (q - inject_Z 1) (Z.of_nat i)) eqn:Hle; symmetry; simpl.
  - apply Qle_bool_iff in Hle. apply Z.ltb_ge.
    destruct (Z_le_gt_dec (Qceiling q - 1) (Z.of_nat i)) as [H | H]; [exact H |].
    exfalso. assert (Hlt : (Z.of_nat i + 1 < Qceiling q)%Z) by lia.
    apply ceiling_gt in Hlt. push_inject. lra.
  - apply Z.ltb_lt.
    assert (Hlt : (Z.of_nat i + 1)%Z < q).
    { apply Qnot_le_lt. intros H. apply Bool.not_true_iff_false in Hle. apply Hle.
      apply Qle_bool_iff. push_inject. lra. }
    apply ceiling_gt in Hlt. lia.
Qed.

Section RetryAnyNumber.

#[local] Close Scope Q_scope.

Context {R E : Type}.
Variable execute : nat -> Settled R E.

(** For a finite [maxRetries] the loop is the loop of its ceiling. *)
Lemma retry_loop_finite (q : Q) (left : nat) :
  forall (fuel i : nat) (last : option E) (slept : list Z),
    left = Z.to_nat (Qceiling q) - i ->
    left <= fuel ->
    AnyNumber.retry_loop execute (Tools.Finite q) fuel i last slept
    = Some (Executor.retry_loop execute (Qceiling q) left i last slept).
Proof.
  induction left as [| left' IH]; intros fuel i last slept Hleft Hfuel.
  - destruct fuel; cbn [AnyNumber.retry_loop Executor.retry_loop];
      rewrite lt_finite;
      (destruct (Nat.ltb_spec i (Z.to_nat (Qceiling q))); [lia | reflexivity]).
  - destruct fuel as [| fuel']; [lia |].
    cbn [AnyNumber.retry_loop Executor.retry_loop].
    rewrite lt_finite.
    destruct (Nat.ltb_spec i (Z.to_nat (Qceiling q))); [| lia].
    destruct (execute i) as [r | e]; [reflexivity |].
    rewrite lt_minus_one. apply IH; lia.
Qed.

Lemma retry_finite (q : Q) (fuel : nat) :
  Z.to_nat (Qceiling q) <= fuel ->
  AnyNumber.executeWithRetry execute (Some (Tools.Finite q)) fuel
  = Some (Executor.executeWithRetry execute (Some (Qceiling q))).
Proof.
  intros Hfuel. unfold AnyNumber.executeWithRetry, Executor.executeWithRetry.
  apply retry_loop_finite; lia.
Qed.

(** On an integer [maxRetries] [AnyNumber.executeWithRetry] is
    [Executor.executeWithRetry]. *)
Lemma retry_integer (m : Z) (fuel : nat) :
  Z.to_nat m <= fuel ->
  AnyNumber.executeWithRetry execute (Some (Tools.Finite (inject_Z m))) fuel
  = Some (Executor.executeWithRetry execute (Some m)).
Proof.
  intros Hfuel. rewrite retry_finite by (rewrite Qceiling_Z; exact Hfuel).
  now rewrite Qceiling_Z.
Qed.




End RetryAnyNumber.

End NumberFacts.

Lemma truncate_exact_length_witness :
  Z.of_nat (List.length (AnyNumber.truncateMessages Executor.five_messages
                           AnyNumber.two_and_a_half))
  = 2%Z.
Proof.
  apply (truncate_exact_length Executor.five_messages (QArith_base.Qmake 5 2));
    reflexivity.
Defined.

